(** * nv2apretty: the fixed-function pipeline state tracker

    A shallow embedding of
    [src/nv2apretty/subprocessors/fixed_function_shader.py].

    Python dictionaries are [gmap]s, Python sets are [gset]s, integers are
    [Z].  A call that may raise returns a [result]; the module-level
    globals [_TRACKED_NV097_OPS] and [_OP_TO_INFO_MAP] are threaded
    explicitly as a record [globals].  The module
    [nv2apretty.extracted_data] (opcode constants, the registry
    [CLASS_TO_COMMAND_PROCESSOR_MAP] and the formatter table [_PROCESSORS])
    is not part of the file under study and is taken as a record
    parameter [extracted_data]. *)

From stdpp Require Import gmap strings list pretty.
From Stdlib Require Import ZArith Hexadecimal Ascii String.

Local Open Scope Z_scope.
Local Open Scope string_scope.

(** ** Outcomes of a call *)

Inductive exn :=
| ValueError (msg : string)
| IndexError
| TypeError
| StructError.

Inductive result (A : Type) :=
| Ok (v : A)
| Raise (e : exn).
Arguments Ok {A} v.
Arguments Raise {A} e.

#[global] Instance result_ret : MRet result := fun A v => Ok v.
#[global] Instance result_bind : MBind result := fun A B f r =>
  match r with
  | Ok v => f v
  | Raise e => Raise e
  end.

#[global] Instance result_fmap : FMap result := fun A B f r =>
  match r with
  | Ok v => Ok (f v)
  | Raise e => Raise e
  end.

Definition is_Ok {A} (r : result A) : Prop := exists v, r = Ok v.

(** ** Registry descriptors

    The keys of the registry dictionary are plain ints ([OpInt], a scalar
    opcode), [StateArray]s or [StructStateArray]s.  [OtherKind] stands for
    a key of any other runtime type: [type_repr] is the text of its type
    and [eq_int] is [Some k] when the object compares and hashes equal to
    the int [k] (a float or an int subclass, say), [None] otherwise. *)

Inductive op_info :=
| OpInt (op : Z)
| StateArray (base stride num_elements : Z)
| StructStateArray (base stride num_elements struct_stride struct_count : Z)
| OtherKind (type_repr : string) (eq_int : option Z).

Record extracted_data := {
  NV097_SET_COLOR_MATERIAL : Z;
  NV097_SET_FOG_ENABLE : Z;
  NV097_SET_FOG_GEN_MODE : Z;
  NV097_SET_LIGHT_CONTROL : Z;
  NV097_SET_LIGHT_ENABLE_MASK : Z;
  NV097_SET_LIGHTING_ENABLE : Z;
  NV097_SET_POINT_PARAMS : Z;
  NV097_SET_POINT_PARAMS_ENABLE : Z;
  NV097_SET_POINT_SIZE : Z;
  NV097_SET_POINT_SMOOTH_ENABLE : Z;
  NV097_SET_SKIN_MODE : Z;
  NV097_SET_SPECULAR_ENABLE : Z;
  NV097_SET_TEXGEN_Q : Z;
  NV097_SET_TEXGEN_R : Z;
  NV097_SET_TEXGEN_S : Z;
  NV097_SET_TEXGEN_T : Z;
  NV097_SET_TEXTURE_MATRIX_ENABLE : Z;
  NV097_SET_TWO_SIDE_LIGHT_EN : Z;
  (* class -> keys of the per-class dictionary, in iteration order *)
  CLASS_TO_COMMAND_PROCESSOR_MAP : gmap Z (list op_info);
  (* (class, opcode) -> formatter called as processor(0, class, value) *)
  _PROCESSORS : gmap (Z * Z) (Z -> Z -> Z -> string)
}.

(** The two module-level globals. *)
Record globals := {
  _TRACKED_NV097_OPS : gset Z;
  _OP_TO_INFO_MAP : gmap Z op_info
}.

Definition initial_globals : globals :=
  {| _TRACKED_NV097_OPS := ∅; _OP_TO_INFO_MAP := ∅ |}.

(** [range(n)]: empty when [n <= 0]. *)
Definition range (n : Z) : list Z := seqZ 0 n.

(** Values returned by [get_raw_value]. *)
Inductive raw_value :=
| RawNone
| RawInt (v : Z)
| RawList (vs : list Z)
| RawNested (vss : list (list Z)).

(** Values returned by [_process]. *)
Inductive processed :=
| PStr (s : string)
| PList (l : list string)
| PNested (l : list (list string)).

(** ** Text rendering of the Python runtime *)

Definition tab : string := String (Ascii.ascii_of_nat 9) "".
Definition newline : string := String (Ascii.ascii_of_nat 10) "".

(** [str(b)] for a bool. *)
Definition bool_str (b : bool) : string := if b then "True" else "False".

(** [sep.join(parts)] *)
Definition join (sep : string) (parts : list string) : string :=
  String.concat sep parts.

Fixpoint upper_hex_digits (d : Hexadecimal.uint) : string :=
  match d with
  | Nil => ""
  | D0 r => String "0"%char (upper_hex_digits r)
  | D1 r => String "1"%char (upper_hex_digits r)
  | D2 r => String "2"%char (upper_hex_digits r)
  | D3 r => String "3"%char (upper_hex_digits r)
  | D4 r => String "4"%char (upper_hex_digits r)
  | D5 r => String "5"%char (upper_hex_digits r)
  | D6 r => String "6"%char (upper_hex_digits r)
  | D7 r => String "7"%char (upper_hex_digits r)
  | D8 r => String "8"%char (upper_hex_digits r)
  | D9 r => String "9"%char (upper_hex_digits r)
  | Da r => String "A"%char (upper_hex_digits r)
  | Db r => String "B"%char (upper_hex_digits r)
  | Dc r => String "C"%char (upper_hex_digits r)
  | Dd r => String "D"%char (upper_hex_digits r)
  | De r => String "E"%char (upper_hex_digits r)
  | Df r => String "F"%char (upper_hex_digits r)
  end.

(** [format(v, "X")]: upper-case digits, a leading minus for negatives. *)
Definition format_X (v : Z) : string :=
  (if bool_decide (v < 0) then "-" else "")
  ++ upper_hex_digits (N.to_hex_uint (Z.abs_N v)).

(** ** [as_float]

    [struct.unpack("!f", ...)] returns a Python float (a double) whose only
    use in this module is its text in the report.  A zero, subnormal,
    normal or infinite value widens exactly and is kept as the sign, biased
    exponent and fraction of the binary32 datum it is read from.  For a NaN
    (exponent 255, fraction not zero) the widening may alter the payload (a
    signalling NaN comes back quieted on some interpreters) and every NaN
    has the same text, so the model keeps no field of a NaN. *)

Inductive float32 :=
| Float32NaN
| Float32Value (f_sign : bool) (f_exponent f_fraction : Z).

Definition float32_of_fields (sign : bool) (exponent fraction : Z)
  : float32 :=
  if bool_decide (exponent = 255 /\ fraction <> 0) then Float32NaN
  else Float32Value sign exponent fraction.

(** [struct.pack("!I", v)]: four bytes, most significant first. *)
Definition struct_pack_I (v : Z) : result (list Z) :=
  if decide (0 <= v < 2 ^ 32) then
    Ok [ Z.land (Z.shiftr v 24) 255; Z.land (Z.shiftr v 16) 255;
         Z.land (Z.shiftr v 8) 255; Z.land v 255 ]
  else Raise StructError.

(** [struct.unpack("!f", packed_bytes)[0]]: the same order. *)
Definition struct_unpack_f (packed_bytes : list Z) : result float32 :=
  match packed_bytes with
  | [b0; b1; b2; b3] =>
      let w := Z.lor (Z.shiftl b0 24)
                 (Z.lor (Z.shiftl b1 16) (Z.lor (Z.shiftl b2 8) b3)) in
      Ok (float32_of_fields (Z.testbit w 31) (Z.land (Z.shiftr w 23) 255)
            (Z.land w (2 ^ 23 - 1)))
  | _ => Raise StructError
  end.

Definition as_float (int_val : Z) : result float32 :=
  packed_bytes ← struct_pack_I int_val;
  struct_unpack_f packed_bytes.

(** ** Indexing, iteration and truth value of the dynamic values *)

(** An element of a raw list: an int, or an inner list. *)
Inductive raw_item :=
| ItemInt (v : Z)
| ItemList (vs : list Z).

(** [bool(value)] *)
Definition raw_truthy (r : raw_value) : bool :=
  match r with
  | RawNone => false
  | RawInt v => bool_decide (v ≠ 0)
  | RawList vs => bool_decide (vs ≠ [])
  | RawNested vss => bool_decide (vss ≠ [])
  end.

(** [value != 0] *)
Definition raw_ne_zero (r : raw_value) : bool :=
  match r with
  | RawInt v => bool_decide (v ≠ 0)
  | _ => true
  end.

(** [value[i]] *)
Definition raw_getitem (r : raw_value) (i : nat) : result raw_item :=
  match r with
  | RawNone | RawInt _ => Raise TypeError
  | RawList vs =>
      match vs !! i with
      | Some v => Ok (ItemInt v)
      | None => Raise IndexError
      end
  | RawNested vss =>
      match vss !! i with
      | Some vs => Ok (ItemList vs)
      | None => Raise IndexError
      end
  end.

(** The items a [for] loop over the value visits. *)
Definition raw_iter (r : raw_value) : result (list raw_item) :=
  match r with
  | RawNone | RawInt _ => Raise TypeError
  | RawList vs => Ok (ItemInt <$> vs)
  | RawNested vss => Ok (ItemList <$> vss)
  end.

Definition item_iter (it : raw_item) : result (list raw_item) :=
  match it with
  | ItemInt _ => Raise TypeError
  | ItemList vs => Ok (ItemInt <$> vs)
  end.

Definition item_truthy (it : raw_item) : bool :=
  match it with
  | ItemInt v => bool_decide (v ≠ 0)
  | ItemList vs => bool_decide (vs ≠ [])
  end.

Definition as_float_item (it : raw_item) : result float32 :=
  match it with
  | ItemInt v => as_float v
  | ItemList _ => Raise StructError
  end.

Definition processed_truthy (p : processed) : bool :=
  match p with
  | PStr s => bool_decide (s ≠ "")
  | PList l => bool_decide (l ≠ [])
  | PNested l => bool_decide (l ≠ [])
  end.

(** [len(value)] *)
Definition processed_len (p : processed) : nat :=
  match p with
  | PStr s => String.length s
  | PList l => List.length l
  | PNested l => List.length l
  end.

Section core.
Context (ed : extracted_data).
(** [repr] of a [str] and [str] of a [float], as the interpreter
    renders them. *)
Context (repr_str : string -> string) (float_str : float32 -> string).

Definition _BASE_TRACKED_NV097_OPS : gset Z :=
  list_to_set
    [ NV097_SET_COLOR_MATERIAL ed; NV097_SET_FOG_ENABLE ed;
      NV097_SET_FOG_GEN_MODE ed; NV097_SET_LIGHT_CONTROL ed;
      NV097_SET_LIGHT_ENABLE_MASK ed; NV097_SET_LIGHTING_ENABLE ed;
      NV097_SET_POINT_PARAMS ed; NV097_SET_POINT_PARAMS_ENABLE ed;
      NV097_SET_POINT_SIZE ed; NV097_SET_POINT_SMOOTH_ENABLE ed;
      NV097_SET_SKIN_MODE ed; NV097_SET_SPECULAR_ENABLE ed;
      NV097_SET_TWO_SIDE_LIGHT_EN ed; NV097_SET_TEXTURE_MATRIX_ENABLE ed;
      NV097_SET_TEXGEN_S ed; NV097_SET_TEXGEN_T ed;
      NV097_SET_TEXGEN_R ed; NV097_SET_TEXGEN_Q ed ].

(** *** [_populate_tracked_ops] *)

(** [base_op] of the loop body, as the int it is equal to. *)
Definition base_op (info : op_info) : option Z :=
  match info with
  | OpInt op => Some op
  | StateArray base _ _ => Some base
  | StructStateArray base _ _ _ _ => Some base
  | OtherKind _ k => k
  end.

(** [for i in range(num_elements): tracked.add(base + i * stride)] *)
Definition add_elements (base stride num_elements : Z) (tracked : gset Z)
  : gset Z :=
  fold_left (fun t i => {[ base + i * stride ]} ∪ t) (range num_elements)
    tracked.

(** The outer loop of the [StructStateArray] case; [base] is the running
    variable that is advanced by [struct_stride] after every struct. *)
Fixpoint add_structs (stride num_elements struct_stride : Z)
    (remaining : nat) (base : Z) (tracked : gset Z) : gset Z :=
  match remaining with
  | O => tracked
  | S k =>
      add_structs stride num_elements struct_stride k (base + struct_stride)
        (add_elements base stride num_elements tracked)
  end.

(** One iteration of [for op_info in kelvin_ops]. *)
Definition populate_body (g : globals) (info : op_info) : globals :=
  match base_op info with
  | None => g
  | Some b =>
      if decide (b ∈ _BASE_TRACKED_NV097_OPS) then
        let m := <[ b := info ]> (_OP_TO_INFO_MAP g) in
        let t := _TRACKED_NV097_OPS g in
        match info with
        | OpInt op =>
            {| _TRACKED_NV097_OPS := {[ op ]} ∪ t; _OP_TO_INFO_MAP := m |}
        | StateArray base stride n =>
            {| _TRACKED_NV097_OPS := add_elements base stride n t;
               _OP_TO_INFO_MAP := m |}
        | StructStateArray base stride n struct_stride struct_count =>
            {| _TRACKED_NV097_OPS :=
                 add_structs stride n struct_stride (Z.to_nat struct_count)
                   base t;
               _OP_TO_INFO_MAP := m |}
        | OtherKind _ _ =>
            {| _TRACKED_NV097_OPS := t; _OP_TO_INFO_MAP := m |}
        end
      else g
  end.

Definition kelvin_ops : list op_info :=
  default [] (CLASS_TO_COMMAND_PROCESSOR_MAP ed !! 0x97).

(** The body holds no [raise]: every path returns. *)
Definition _populate_tracked_ops (g : globals) : result globals :=
  if decide (_TRACKED_NV097_OPS g = ∅) then
    Ok (fold_left populate_body kelvin_ops g)
  else Ok g.

(** *** [FixedFunctionPipelineState] *)

Definition update (g : globals) (_state : gmap Z Z) (nv_op nv_param : Z)
  : gmap Z Z :=
  if decide (nv_op ∈ _TRACKED_NV097_OPS g) then <[ nv_op := nv_param ]> _state
  else _state.

(** [self._state.get(key, default)] *)
Definition state_get (_state : gmap Z Z) (key : Z) (dflt : option Z)
  : option Z :=
  match _state !! key with
  | Some v => Some v
  | None => dflt
  end.

(** The element loop of [get_raw_value]; [None] is the early
    [return None], [raw_values] the list built so far. *)
Fixpoint collect_elements (_state : gmap Z Z) (dflt : option Z)
    (base stride : Z) (indices : list Z) (raw_values : list Z)
  : option (list Z) :=
  match indices with
  | [] => Some raw_values
  | i :: rest =>
      match state_get _state (base + i * stride) dflt with
      | None => None
      | Some val =>
          collect_elements _state dflt base stride rest (raw_values ++ [val])
      end
  end.

(** The struct loop of [get_raw_value]. *)
Fixpoint collect_structs (_state : gmap Z Z) (dflt : option Z)
    (stride num_elements struct_stride : Z) (remaining : nat) (base : Z)
    (raw_values : list (list Z)) : option (list (list Z)) :=
  match remaining with
  | O => Some raw_values
  | S k =>
      match collect_elements _state dflt base stride (range num_elements) []
      with
      | None => None
      | Some element_values =>
          collect_structs _state dflt stride num_elements struct_stride k
            (base + struct_stride) (raw_values ++ [element_values])
      end
  end.

Definition unsupported (type_repr : string) : exn :=
  ValueError ("Unsupported op_type '" ++ type_repr ++ "'").

Definition get_raw_value (g : globals) (_state : gmap Z Z) (opcode : Z)
    (dflt : option Z) : result raw_value :=
  match _OP_TO_INFO_MAP g !! opcode with
  | None | Some (OpInt _) =>
      Ok (match state_get _state opcode dflt with
          | Some v => RawInt v
          | None => RawNone
          end)
  | Some (StateArray base stride n) =>
      Ok (match collect_elements _state dflt base stride (range n) [] with
          | Some raw_values => RawList raw_values
          | None => RawNone
          end)
  | Some (StructStateArray base stride n struct_stride struct_count) =>
      Ok (match collect_structs _state dflt stride n struct_stride
                  (Z.to_nat struct_count) base [] with
          | Some raw_values => RawNested raw_values
          | None => RawNone
          end)
  | Some (OtherKind ty _) => Raise (unsupported ty)
  end.

(** *** [_process] *)

(** [processor(0, 0x97, param) if processor else f"0x{param:X}"] with
    [processor = _PROCESSORS.get((0x97, op))]. *)
Definition format_param (op : Z) (param : raw_item) : result string :=
  match param with
  | ItemInt v =>
      Ok (match _PROCESSORS ed !! (0x97, op) with
          | Some processor => processor 0 0x97 v
          | None => "0x" ++ format_X v
          end)
  | ItemList _ => Raise TypeError
  end.

(** [for i, param in enumerate(raw_value)] of the [StateArray] case and of
    one struct of the [StructStateArray] case. *)
Fixpoint process_elements (base stride : Z) (i : Z) (params : list raw_item)
    (processed_values : list string) : result (list string) :=
  match params with
  | [] => Ok processed_values
  | param :: rest =>
      text ← format_param (base + i * stride) param;
      process_elements base stride (i + 1) rest (processed_values ++ [text])
  end.

(** [for struct_element in raw_value], [base] advanced after each. *)
Fixpoint process_structs (stride struct_stride : Z) (base : Z)
    (structs : list raw_item) (processed_struct_values : list (list string))
  : result (list (list string)) :=
  match structs with
  | [] => Ok processed_struct_values
  | struct_element :: rest =>
      params ← item_iter struct_element;
      processed_struct ← process_elements base stride 0 params [];
      process_structs stride struct_stride (base + struct_stride) rest
        (processed_struct_values ++ [processed_struct])
  end.

Definition _process (g : globals) (_state : gmap Z Z) (opcode : Z)
    (default_raw_value : option Z) (default_string_value : string)
  : result processed :=
  raw_value ← get_raw_value g _state opcode default_raw_value;
  match _OP_TO_INFO_MAP g !! opcode with
  | None | Some (OpInt _) =>
      match raw_value with
      | RawNone => Ok (PStr default_string_value)
      | RawInt v => PStr <$> format_param opcode (ItemInt v)
      | RawList vs => PStr <$> format_param opcode (ItemList vs)
      | RawNested _ => Raise TypeError
      end
  | Some (StateArray base stride n) =>
      match raw_value with
      | RawNone => Ok (PList (replicate (Z.to_nat n) default_string_value))
      | _ =>
          params ← raw_iter raw_value;
          PList <$> process_elements base stride 0 params []
      end
  | Some (StructStateArray base stride n struct_stride struct_count) =>
      match raw_value with
      | RawNone => Ok (PList (replicate (Z.to_nat n) default_string_value))
      | _ =>
          structs ← raw_iter raw_value;
          PNested <$> process_structs stride struct_stride base structs []
      end
  | Some (OtherKind ty _) => Raise (unsupported ty)
  end.

(** *** [__str__] *)

(** [str] of a list of strings and of a list of such lists. *)
Definition str_list (l : list string) : string :=
  "[" ++ join ", " (repr_str <$> l) ++ "]".

Definition str_nested (l : list (list string)) : string :=
  "[" ++ join ", " (str_list <$> l) ++ "]".

(** [f"{value}"] *)
Definition format_processed (p : processed) : string :=
  match p with
  | PStr s => s
  | PList l => str_list l
  | PNested l => str_nested l
  end.

(** [f"{value[i]}"] *)
Definition format_getitem (p : processed) (i : nat) : result string :=
  match p with
  | PStr s =>
      match String.get i s with
      | Some c => Ok (String c "")
      | None => Raise IndexError
      end
  | PList l =>
      match l !! i with
      | Some s => Ok s
      | None => Raise IndexError
      end
  | PNested l =>
      match l !! i with
      | Some inner => Ok (str_list inner)
      | None => Raise IndexError
      end
  end.

(** [self._process(opcode)] with both defaults. *)
Definition process_default (g : globals) (_state : gmap Z Z) (opcode : Z)
  : result processed :=
  _process g _state opcode None "<UNKNOWN>".

(** Lines 199 to 205. *)
Definition lighting_section (g : globals) (_state : gmap Z Z)
  : result (list string) :=
  lighting ← get_raw_value g _state (NV097_SET_LIGHTING_ENABLE ed) (Some 0);
  let lighting_enabled := raw_ne_zero lighting in
  let ret := ["  Lighting: " ++ bool_str lighting_enabled] in
  if lighting_enabled then
    two_sided ←
      get_raw_value g _state (NV097_SET_TWO_SIDE_LIGHT_EN ed) (Some 0);
    color_material ←
      process_default g _state (NV097_SET_COLOR_MATERIAL ed);
    light_control ← process_default g _state (NV097_SET_LIGHT_CONTROL ed);
    light_enable ←
      process_default g _state (NV097_SET_LIGHT_ENABLE_MASK ed);
    Ok (List.app ret
        [ tab ++ "Two sided: " ++ bool_str (raw_truthy two_sided);
          tab ++ "Color material: " ++ format_processed color_material;
          tab ++ "Light control: " ++ format_processed light_control;
          tab ++ "Light enable: " ++ format_processed light_enable ])
  else Ok ret.

(** Lines 207 to 214. *)
Definition fog_section (g : globals) (_state : gmap Z Z)
  : result (list string) :=
  specular ← get_raw_value g _state (NV097_SET_SPECULAR_ENABLE ed) (Some 0);
  let ret := ["Specular enable: " ++ bool_str (raw_truthy specular)] in
  fog ← get_raw_value g _state (NV097_SET_FOG_ENABLE ed) (Some 0);
  let fog_enabled := raw_ne_zero fog in
  let ret := List.app ret ["Fog enable: " ++ bool_str fog_enabled] in
  ret ←
    (if fog_enabled then
       mode ← process_default g _state (NV097_SET_FOG_GEN_MODE ed);
       Ok (List.app ret [tab ++ "Fog gen mode: " ++ format_processed mode])
     else Ok ret);
  skin ← process_default g _state (NV097_SET_SKIN_MODE ed);
  Ok (List.app ret ["Skinning mode: " ++ format_processed skin]).

(** [as_float(params[i])] *)
Definition float_at (params : raw_value) (i : nat) : result float32 :=
  item ← raw_getitem params i;
  as_float_item item.

(** Lines 221 to 235. *)
Definition point_params_lines (params : raw_value) : result (list string) :=
  if raw_truthy params then
    point_scale_factor_a ← float_at params 0;
    point_scale_factor_b ← float_at params 1;
    point_scale_factor_c ← float_at params 2;
    point_size_range ← float_at params 3;
    point_scale_bias ← float_at params 6;
    point_min_size ← float_at params 7;
    Ok [ tab ++ "Size multiplier: sqrt(1/(" ++ float_str point_scale_factor_a
           ++ " + " ++ float_str point_scale_factor_b ++ " * Deye + "
           ++ float_str point_scale_factor_c ++ " * (Deye^2))";
         tab ++ "Size range: " ++ float_str point_size_range;
         tab ++ "Scale bias: " ++ float_str point_scale_bias;
         tab ++ "Minimum size: " ++ float_str point_min_size ]
  else Ok [].

(** Lines 216 to 238. *)
Definition point_section (g : globals) (_state : gmap Z Z)
  : result (list string) :=
  enable ←
    get_raw_value g _state (NV097_SET_POINT_PARAMS_ENABLE ed) (Some 0);
  let point_params_enabled := raw_ne_zero enable in
  let ret := ["Point params enable: " ++ bool_str point_params_enabled] in
  ret ←
    (if point_params_enabled then
       size ← process_default g _state (NV097_SET_POINT_SIZE ed);
       params ← get_raw_value g _state (NV097_SET_POINT_PARAMS ed) None;
       lines ← point_params_lines params;
       Ok (List.app ret
             (List.app [tab ++ "Point size: " ++ format_processed size] lines))
     else Ok ret);
  smooth ←
    get_raw_value g _state (NV097_SET_POINT_SMOOTH_ENABLE ed) (Some 0);
  Ok (List.app ret (if raw_truthy smooth
               then ["Point smooth (point sprites) enabled"] else [])).

(** One line of the generator at lines 247 and 248. *)
Definition texgen_line (s_vals t_vals r_vals q_vals : processed) (i : nat)
  : result string :=
  s ← format_getitem s_vals i;
  t ← format_getitem t_vals i;
  r ← format_getitem r_vals i;
  q ← format_getitem q_vals i;
  Ok (tab ++ "S[" ++ pretty i ++ "] " ++ s ++ ", T[" ++ pretty i ++ "] " ++ t
      ++ " R[" ++ pretty i ++ "]: " ++ r ++ " Q[" ++ pretty i ++ "]: " ++ q).

(** Lines 245 to 249: what [ret.extend] appends. *)
Definition texgen_lines (s_vals t_vals r_vals q_vals : processed)
  : result (list string) :=
  if forallb processed_truthy [s_vals; t_vals; r_vals; q_vals] then
    mapM (texgen_line s_vals t_vals r_vals q_vals)
      (seq 0 (processed_len s_vals))
  else Ok [].

(** Lines 240 to 249. *)
Definition texgen_section (g : globals) (_state : gmap Z Z)
  : result (list string) :=
  s_vals ← process_default g _state (NV097_SET_TEXGEN_S ed);
  t_vals ← process_default g _state (NV097_SET_TEXGEN_T ed);
  r_vals ← process_default g _state (NV097_SET_TEXGEN_R ed);
  q_vals ← process_default g _state (NV097_SET_TEXGEN_Q ed);
  lines ← texgen_lines s_vals t_vals r_vals q_vals;
  Ok ("TexGen: " :: lines).

(** Lines 251 to 254. *)
Definition texture_matrix_section (g : globals) (_state : gmap Z Z)
  : result (list string) :=
  tex_matrix_en ←
    get_raw_value g _state (NV097_SET_TEXTURE_MATRIX_ENABLE ed) None;
  if raw_truthy tex_matrix_en then
    items ← raw_iter tex_matrix_en;
    let texture_matrix_data :=
      imap (fun index item =>
              "[" ++ pretty index ++ ": " ++ bool_str (item_truthy item)
              ++ "]") items in
    Ok ["TextureMatrix: " ++ join ", " texture_matrix_data]
  else Ok [].

(** The list [ret] at the end of [__str__]. *)
Definition report_lines (g : globals) (_state : gmap Z Z)
  : result (list string) :=
  lighting ← lighting_section g _state;
  fog ← fog_section g _state;
  point ← point_section g _state;
  texgen ← texgen_section g _state;
  texture_matrix ← texture_matrix_section g _state;
  Ok (lighting ++ fog ++ point ++ texgen ++ texture_matrix)%list.

Definition __str__ (g : globals) (_state : gmap Z Z) : result string :=
  ret ← report_lines g _state;
  Ok (join (newline ++ "  ") ret).

End core.

(** ** A sample instance of the external data

    Opcode values of the Kelvin (0x97) class and a registry in the shape
    the report expects: scalars, four-element arrays for the per-stage
    fields and an eight-element array for the point parameters.  It is
    used to run the definitions on concrete inputs. *)

Definition sample_kelvin_ops : list op_info :=
  [ OpInt 0x100; OpInt 0x294; OpInt 0x298; OpInt 0x2A0; OpInt 0x2A4;
    OpInt 0x314; OpInt 0x318; OpInt 0x31C; OpInt 0x328; OpInt 0x3B8;
    OpInt 0x3BC; StateArray 0x3C0 16 4; StateArray 0x3C4 16 4;
    StateArray 0x3C8 16 4; StateArray 0x3CC 16 4; StateArray 0x420 4 4;
    OpInt 0x43C; StateArray 0xA30 4 8; OpInt 0x17C4 ].

Definition sample_data_with (ops : list op_info) : extracted_data :=
  {| NV097_SET_COLOR_MATERIAL := 0x298;
     NV097_SET_FOG_ENABLE := 0x2A4;
     NV097_SET_FOG_GEN_MODE := 0x2A0;
     NV097_SET_LIGHT_CONTROL := 0x294;
     NV097_SET_LIGHT_ENABLE_MASK := 0x3BC;
     NV097_SET_LIGHTING_ENABLE := 0x314;
     NV097_SET_POINT_PARAMS := 0xA30;
     NV097_SET_POINT_PARAMS_ENABLE := 0x318;
     NV097_SET_POINT_SIZE := 0x43C;
     NV097_SET_POINT_SMOOTH_ENABLE := 0x31C;
     NV097_SET_SKIN_MODE := 0x328;
     NV097_SET_SPECULAR_ENABLE := 0x3B8;
     NV097_SET_TEXGEN_Q := 0x3CC;
     NV097_SET_TEXGEN_R := 0x3C8;
     NV097_SET_TEXGEN_S := 0x3C0;
     NV097_SET_TEXGEN_T := 0x3C4;
     NV097_SET_TEXTURE_MATRIX_ENABLE := 0x420;
     NV097_SET_TWO_SIDE_LIGHT_EN := 0x17C4;
     CLASS_TO_COMMAND_PROCESSOR_MAP := {[ 0x97 := ops ]};
     _PROCESSORS := ∅ |}.

Definition sample_data : extracted_data := sample_data_with sample_kelvin_ops.

(** The globals after the module-level call of [_populate_tracked_ops]. *)
Definition populated (ed : extracted_data) : globals :=
  match _populate_tracked_ops ed initial_globals with
  | Ok g => g
  | Raise _ => initial_globals
  end.

Definition sample_globals : globals := populated sample_data.

(** Stand-ins for the interpreter's renderings in the examples. *)
Definition sample_repr (s : string) : string := "'" ++ s ++ "'".
Definition sample_float_str (f : float32) : string :=
  match f with
  | Float32NaN => "nan"
  | Float32Value sign exponent fraction =>
      (if sign then "-" else "+") ++ pretty exponent ++ ":" ++ pretty fraction
  end.

(** A registry whose tracked field is a struct array: three structs of
    two elements each, at 0x3C0, 0x3C4, 0x3D0, 0x3D4, 0x3E0 and 0x3E4. *)
Definition struct_data : extracted_data :=
  sample_data_with [ StructStateArray 0x3C0 4 2 16 3 ].

Definition struct_globals : globals := populated struct_data.

(** A registry holding a key of a foreign type (a float, say) that is
    equal to the tracked opcode 0x314. *)
Definition foreign_data : extracted_data :=
  sample_data_with [ OpInt 0x318; OtherKind "<class 'float'>" (Some 0x314) ].


(** [times] successive calls of [_populate_tracked_ops]. *)
Definition populate_times (ed : extracted_data) (times : nat) (g : globals)
  : result globals :=
  Nat.iter times (fun r => r ≫= _populate_tracked_ops ed) (Ok g).

(** The line of index [i] when all four fields hold the default text. *)
Definition unknown_texgen_line (i : nat) : string :=
  (tab ++ "S[" ++ pretty i ++ "] <UNKNOWN>, T[" ++ pretty i
   ++ "] <UNKNOWN> R[" ++ pretty i ++ "]: <UNKNOWN> Q[" ++ pretty i
   ++ "]: <UNKNOWN>")%string.

(** The three kinds the code dispatches on. *)
Definition known_kind (info : op_info) : bool :=
  match info with
  | OtherKind _ _ => false
  | _ => true
  end.

(** A frame that enables lighting and point parameters, writes the eight
    point parameters (1.0, 0.0, 0.0, 10.0, 0, 0, 1.0, 2.0 as bit
    patterns), some texgen and texture-matrix values and one untracked
    opcode. *)
Definition sample_updates : list (Z * Z) :=
  [ (0x314, 1); (0x318, 1); (0xA30, 0x3F800000); (0xA34, 0); (0xA38, 0);
    (0xA3C, 0x41200000); (0xA40, 0); (0xA44, 0); (0xA48, 0x3F800000);
    (0xA4C, 0x40000000); (0x3C0, 5); (0x420, 1); (0x424, 0); (0x428, 0);
    (0x42C, 7); (0x999, 1) ].

(** ** Sessions *)

(** A frame: [update] applied to each (opcode, parameter) pair in turn,
    starting from the empty state of a fresh
    [FixedFunctionPipelineState]. *)
Definition run_updates (g : globals) (updates : list (Z * Z)) : gmap Z Z :=
  fold_left (fun st '(nv_op, nv_param) => update g st nv_op nv_param) updates ∅.

Definition uint32 (v : Z) : Prop := 0 <= v < 2 ^ 32.

(** The shape [__str__] relies on when it indexes and iterates the values
    it reads: no descriptor of a foreign kind, the point parameters an
    array of at least eight elements, the four texgen fields arrays with T,
    R and Q no shorter than S, and the texture-matrix enables an array. *)
Record report_ready (ed : extracted_data) (g : globals) : Prop := {
  ready_kinds :
    forall opcode ty k, _OP_TO_INFO_MAP g !! opcode <> Some (OtherKind ty k);
  ready_point_params :
    exists base stride n,
      _OP_TO_INFO_MAP g !! NV097_SET_POINT_PARAMS ed
      = Some (StateArray base stride n) /\ 8 <= n;
  ready_texgen :
    exists bs ss ns bt st nt br sr nr bq sq nq,
      _OP_TO_INFO_MAP g !! NV097_SET_TEXGEN_S ed = Some (StateArray bs ss ns)
      /\ _OP_TO_INFO_MAP g !! NV097_SET_TEXGEN_T ed
         = Some (StateArray bt st nt)
      /\ _OP_TO_INFO_MAP g !! NV097_SET_TEXGEN_R ed
         = Some (StateArray br sr nr)
      /\ _OP_TO_INFO_MAP g !! NV097_SET_TEXGEN_Q ed
         = Some (StateArray bq sq nq)
      /\ ns <= nt /\ ns <= nr /\ ns <= nq;
  ready_texture_matrix :
    exists base stride n,
      _OP_TO_INFO_MAP g !! NV097_SET_TEXTURE_MATRIX_ENABLE ed
      = Some (StateArray base stride n)
}.

(** ** Opcodes of a field *)

(** The raw opcodes a descriptor stands for: the opcode itself for a scalar,
    [base + i * stride] for an array, [base + j * struct_stride + i * stride]
    for a struct array, none for a foreign kind. *)
Definition expands_to (info : op_info) (x : Z) : Prop :=
  match info with
  | OpInt op => x = op
  | StateArray base stride n =>
      exists i, 0 <= i < n /\ x = base + i * stride
  | StructStateArray base stride n struct_stride struct_count =>
      exists j i, 0 <= j < struct_count /\ 0 <= i < n
                  /\ x = base + j * struct_stride + i * stride
  | OtherKind _ _ => False
  end.

(** The raw opcodes [get_raw_value] looks up for [opcode]. *)
Definition field_opcodes (g : globals) (opcode : Z) (x : Z) : Prop :=
  match _OP_TO_INFO_MAP g !! opcode with
  | None | Some (OpInt _) => x = opcode
  | Some info => expands_to info x
  end.

(** The updates that write [vs] to the elements [i], [i + 1], ... of an
    array, in order. *)
Fixpoint array_updates_from (base stride i : Z) (vs : list Z)
  : list (Z * Z) :=
  match vs with
  | [] => []
  | v :: rest =>
      (base + i * stride, v) :: array_updates_from base stride (i + 1) rest
  end.

Definition array_updates (base stride : Z) (vs : list Z) : list (Z * Z) :=
  array_updates_from base stride 0 vs.

(** The text of one int: [processor(0, 0x97, v)] when a formatter is
    registered for [op], the upper-case hexadecimal text otherwise. *)
Definition decode_int (ed : extracted_data) (op v : Z) : string :=
  match _PROCESSORS ed !! (0x97, op) with
  | Some processor => processor 0 0x97 v
  | None => "0x" ++ format_X v
  end.

(** A field the registry describes as a scalar, or does not describe. *)
Definition scalar_field (g : globals) (opcode : Z) : Prop :=
  match _OP_TO_INFO_MAP g !! opcode with
  | None | Some (OpInt _) => True
  | Some _ => False
  end.

(** ** The fields the report reads *)













(** * Properties *)

Local Open Scope list_scope.

(** ** The loops of [get_raw_value] in closed form *)

Lemma collect_elements_mapM (st : gmap Z Z) dflt base stride indices acc :
  collect_elements st dflt base stride indices acc
  = (fun vs => acc ++ vs)
    <$> mapM (fun i => state_get st (base + i * stride) dflt) indices.
Proof.
  revert acc. induction indices as [|i rest IH]; intros acc; simpl.
  - by rewrite app_nil_r.
  - destruct (state_get st (base + i * stride) dflt) as [val|]; simpl; [|done].
    rewrite IH.
    destruct (mapM _ rest) as [vs|]; simpl; [|done].
    by rewrite <- app_assoc.
Qed.

Lemma collect_structs_mapM (st : gmap Z Z) dflt stride n struct_stride
    remaining base j0 acc :
  collect_structs st dflt stride n struct_stride remaining
    (base + j0 * struct_stride) acc
  = (fun vss => acc ++ vss)
    <$> mapM (fun j =>
                mapM (fun i =>
                        state_get st (base + j * struct_stride + i * stride)
                          dflt) (range n))
          (seqZ j0 (Z.of_nat remaining)).
Proof.
  revert j0 acc. induction remaining as [|k IH]; intros j0 acc.
  - simpl. by rewrite app_nil_r.
  - rewrite seqZ_cons by lia.
    replace (Z.pred (Z.of_nat (S k))) with (Z.of_nat k) by lia.
    cbn [collect_structs]. rewrite collect_elements_mapM. simpl.
    destruct (mapM _ (range n)) as [element_values|]; simpl; [|done].
    replace (base + j0 * struct_stride + struct_stride)
      with (base + Z.succ j0 * struct_stride) by lia.
    rewrite IH.
    destruct (mapM _ (seqZ (Z.succ j0) (Z.of_nat k))) as [vss|]; simpl; [|done].
    by rewrite <- app_assoc.
Qed.

(** What a successful [mapM] over [range n] holds at each index. *)
Lemma mapM_range_lookup {B} (f : Z -> option B) n (ys : list B) :
  mapM f (range n) = Some ys ->
  List.length ys = Z.to_nat n /\
  forall i, 0 <= i < n -> ys !! Z.to_nat i = f i.
Proof.
  intros H. apply mapM_Some in H. split.
  - rewrite <- (Forall2_length _ _ _ H). apply length_seqZ.
  - intros i Hi.
    assert (Hl : range n !! Z.to_nat i = Some i).
    { unfold range. rewrite lookup_seqZ_lt by lia. f_equal. lia. }
    destruct (Forall2_lookup_l _ _ _ _ _ H Hl) as (y & Hy & Hf).
    by rewrite Hy, Hf.
Qed.

Lemma mapM_range_None {B} (f : Z -> option B) n i :
  0 <= i < n -> f i = None -> mapM f (range n) = None.
Proof.
  intros Hi Hf. apply mapM_None, Exists_exists. exists i. split; [|done].
  unfold range. apply elem_of_seqZ. lia.
Qed.

Lemma mapM_range_is_Some {B} (f : Z -> option B) n :
  (forall i, 0 <= i < n -> f i <> None) -> is_Some (mapM f (range n)).
Proof.
  intros H. apply mapM_is_Some, Forall_forall. intros i Hi.
  unfold range in Hi. apply elem_of_seqZ in Hi. simpl.
  destruct (f i) eqn:E; [eauto|]. exfalso. apply (H i); [lia|done].
Qed.

(** ** Reconstruction of arrays *)

(** C1: for an opcode whose descriptor is a [StateArray] of [n] elements,
    [get_raw_value] is all or nothing.  If some element of index [i] in
    [0, n) resolves to [None] (nothing stored at [base + i * stride] and the
    default is [None]) the call returns [None]; if every element resolves,
    it returns a list of exactly [n] values whose entry [i] is the value
    resolved at [base + i * stride]; and with a default [d] other than
    [None] the result is never [None]: it is the list of the stored values
    with [d] at the missing ones. *)
Theorem get_raw_value_array_all_or_nothing
    (g : globals) (st : gmap Z Z) (opcode base stride n : Z)
    (dflt : option Z) :
  _OP_TO_INFO_MAP g !! opcode = Some (StateArray base stride n) ->
  ((exists i, 0 <= i < n /\ state_get st (base + i * stride) dflt = None) ->
   get_raw_value g st opcode dflt = Ok RawNone)
  /\
  ((forall i, 0 <= i < n -> state_get st (base + i * stride) dflt <> None) ->
   exists vs,
     get_raw_value g st opcode dflt = Ok (RawList vs)
     /\ Z.of_nat (List.length vs) = Z.max 0 n
     /\ forall i, 0 <= i < n ->
          vs !! Z.to_nat i = state_get st (base + i * stride) dflt)
  /\
  (forall d, dflt = Some d ->
     get_raw_value g st opcode dflt
     = Ok (RawList ((fun i => default d (st !! (base + i * stride)))
                    <$> range n))).
Proof.
  intros Hinfo. unfold get_raw_value. rewrite Hinfo.
  rewrite collect_elements_mapM. repeat split.
  - intros (i & Hi & Hnone).
    by rewrite (mapM_range_None _ n i Hi Hnone).
  - intros Hall.
    destruct (mapM_range_is_Some _ n Hall) as [vs Hvs].
    rewrite Hvs. simpl. exists vs.
    destruct (mapM_range_lookup _ _ _ Hvs) as [Hlen Hlook].
    split; [done|]. split; [lia|done].
  - intros d ->.
    assert (H : mapM (fun i => state_get st (base + i * stride) (Some d))
                  (range n)
                = Some ((fun i => default d (st !! (base + i * stride)))
                        <$> range n)).
    { apply mapM_Some. induction (range n) as [|i l IH]; simpl.
      - constructor.
      - constructor; [|done]. unfold state_get. by destruct (st !! _). }
    by rewrite H.
Qed.

Lemma get_raw_value_array_all_or_nothing_witness :
  get_raw_value sample_globals {[ 0xA30 := 7 ]} 0xA30 None = Ok RawNone
  /\ get_raw_value sample_globals {[ 0xA34 := 7 ]} 0xA30 (Some 0)
     = Ok (RawList [0; 7; 0; 0; 0; 0; 0; 0]).
Proof.
  assert (Hinfo : _OP_TO_INFO_MAP sample_globals !! 0xA30
                  = Some (StateArray 0xA30 4 8))
    by (vm_compute; reflexivity).
  split.
  - destruct (get_raw_value_array_all_or_nothing sample_globals
                {[ 0xA30 := 7 ]} 0xA30 0xA30 4 8 None Hinfo) as (H & _ & _).
    apply H. exists 1. split; [lia|]. vm_compute; reflexivity.
  - destruct (get_raw_value_array_all_or_nothing sample_globals
                {[ 0xA34 := 7 ]} 0xA30 0xA30 4 8 (Some 0) Hinfo)
      as (_ & _ & H).
    rewrite (H 0 eq_refl). vm_compute; reflexivity.
Defined.

(** ** Reconstruction of struct arrays *)

(** C2: for an opcode whose descriptor is a [StructStateArray],
    [get_raw_value] returns, when nothing is missing, a list of
    [struct_count] lists of [n] values each, in ascending struct order and,
    inside a struct, ascending element order: entry [i] of struct [j] is the
    value resolved at [base + j * struct_stride + i * stride].  A single
    missing element anywhere makes the whole result [None]. *)
Theorem get_raw_value_struct_array_order
    (g : globals) (st : gmap Z Z)
    (opcode base stride n struct_stride struct_count : Z) (dflt : option Z) :
  _OP_TO_INFO_MAP g !! opcode
  = Some (StructStateArray base stride n struct_stride struct_count) ->
  ((exists j i, 0 <= j < struct_count /\ 0 <= i < n /\
      state_get st (base + j * struct_stride + i * stride) dflt = None) ->
   get_raw_value g st opcode dflt = Ok RawNone)
  /\
  ((forall j i, 0 <= j < struct_count -> 0 <= i < n ->
      state_get st (base + j * struct_stride + i * stride) dflt <> None) ->
   exists vss,
     get_raw_value g st opcode dflt = Ok (RawNested vss)
     /\ Z.of_nat (List.length vss) = Z.max 0 struct_count
     /\ forall j, 0 <= j < struct_count ->
          exists vs,
            vss !! Z.to_nat j = Some vs
            /\ Z.of_nat (List.length vs) = Z.max 0 n
            /\ forall i, 0 <= i < n ->
                 vs !! Z.to_nat i
                 = state_get st (base + j * struct_stride + i * stride) dflt).
Proof.
  intros Hinfo. unfold get_raw_value. rewrite Hinfo.
  pose proof (collect_structs_mapM st dflt stride n struct_stride
                (Z.to_nat struct_count) base 0 []) as Hloop.
  replace (base + 0 * struct_stride) with base in Hloop by lia.
  replace (seqZ 0 (Z.of_nat (Z.to_nat struct_count)))
    with (range struct_count)
    in Hloop by (unfold range, seqZ; by rewrite Nat2Z.id).
  rewrite Hloop. clear Hloop.
  split.
  - intros (j & i & Hj & Hi & Hnone).
    rewrite (mapM_range_None _ struct_count j Hj); [done|].
    by apply (mapM_range_None _ n i Hi).
  - intros Hall.
    destruct (mapM_range_is_Some
                (fun j => mapM (fun i => state_get st
                     (base + j * struct_stride + i * stride) dflt) (range n))
                struct_count) as [vss Hvss].
    { intros j Hj Hnone.
      destruct (mapM_range_is_Some
                  (fun i => state_get st
                     (base + j * struct_stride + i * stride) dflt) n
                  (fun i => Hall j i Hj)) as [vs Hvs].
      congruence. }
    rewrite Hvss. simpl. exists vss.
    destruct (mapM_range_lookup _ _ _ Hvss) as [Hlen Hlook].
    split; [done|]. split; [lia|].
    intros j Hj. specialize (Hlook j Hj). simpl in Hlook.
    destruct (mapM _ (range n)) as [vs|] eqn:Hvs.
    + exists vs. split; [done|].
      destruct (mapM_range_lookup _ _ _ Hvs) as [Hlen' Hlook'].
      split; [lia|done].
    + exfalso.
      destruct (mapM_range_is_Some
                  (fun i => state_get st
                     (base + j * struct_stride + i * stride) dflt) n
                  (fun i => Hall j i Hj)) as [vs Hvs'].
      congruence.
Qed.

Lemma get_raw_value_struct_array_order_witness :
  get_raw_value struct_globals {[ 0x3D4 := 9 ]} 0x3C0 None = Ok RawNone
  /\ exists vss,
       get_raw_value struct_globals {[ 0x3D4 := 9 ]} 0x3C0 (Some 0)
       = Ok (RawNested vss)
       /\ vss !! 1%nat = Some [0; 9].
Proof.
  assert (Hinfo : _OP_TO_INFO_MAP struct_globals !! 0x3C0
                  = Some (StructStateArray 0x3C0 4 2 16 3))
    by (vm_compute; reflexivity).
  split.
  - destruct (get_raw_value_struct_array_order struct_globals
                {[ 0x3D4 := 9 ]} 0x3C0 0x3C0 4 2 16 3 None Hinfo) as [H _].
    apply H. exists 1, 0. split; [lia|]. split; [lia|].
    vm_compute; reflexivity.
  - destruct (get_raw_value_struct_array_order struct_globals
                {[ 0x3D4 := 9 ]} 0x3C0 0x3C0 4 2 16 3 (Some 0) Hinfo)
      as [_ H].
    destruct H as (vss & Hget & _ & Hstruct).
    { intros j i _ _. unfold state_get.
      match goal with |- context [ @lookup ?K ?A ?M ?L ?k ?m ] =>
        destruct (@lookup K A M L k m) end; discriminate. }
    exists vss. split; [exact Hget|].
    destruct (Hstruct 1) as (vs & Hvs & Hlen & Hat); [lia|].
    change (Z.to_nat 1) with 1%nat in Hvs. rewrite Hvs. f_equal.
    pose proof (Hat 0 ltac:(lia)) as H0. pose proof (Hat 1 ltac:(lia)) as H1.
    destruct vs as [|a [|b [|c vs]]]; simpl in Hlen; try lia.
    vm_compute in H0, H1. congruence.
Defined.

(** ** The frame state only holds tracked opcodes *)

Lemma update_dom (g : globals) (st : gmap Z Z) nv_op nv_param :
  dom st ⊆ _TRACKED_NV097_OPS g ->
  dom (update g st nv_op nv_param) ⊆ _TRACKED_NV097_OPS g.
Proof.
  intros Hdom. unfold update.
  destruct (decide (nv_op ∈ _TRACKED_NV097_OPS g)); [|done].
  rewrite dom_insert_L. apply union_subseteq.
  split; [by apply singleton_subseteq_l|done].
Qed.

Lemma fold_update_dom (g : globals) updates (st : gmap Z Z) :
  dom st ⊆ _TRACKED_NV097_OPS g ->
  dom (fold_left (fun st '(nv_op, nv_param) => update g st nv_op nv_param)
         updates st) ⊆ _TRACKED_NV097_OPS g.
Proof.
  revert st. induction updates as [|[nv_op nv_param] rest IH]; intros st Hdom.
  - done.
  - simpl. apply IH. by apply update_dom.
Qed.

(** C6: [update] with an opcode outside the tracked set changes nothing:
    the frame state it returns is the state it was given, so the report
    rendered afterwards is the report rendered before; and whatever the
    sequence of updates of a frame, every opcode held by the state is in
    the tracked set. *)
Theorem update_untracked_is_noop
    (ed : extracted_data) (repr_str : string -> string)
    (float_str : float32 -> string)
    (g : globals) (st : gmap Z Z) (nv_op nv_param : Z) :
  nv_op ∉ _TRACKED_NV097_OPS g ->
  update g st nv_op nv_param = st
  /\ __str__ ed repr_str float_str g (update g st nv_op nv_param)
     = __str__ ed repr_str float_str g st
  /\ forall updates, dom (run_updates g updates) ⊆ _TRACKED_NV097_OPS g.
Proof.
  intros Huntracked.
  assert (Hsame : update g st nv_op nv_param = st).
  { unfold update. by destruct (decide (nv_op ∈ _TRACKED_NV097_OPS g)). }
  split; [done|]. split; [by rewrite Hsame|].
  intros updates. unfold run_updates. apply fold_update_dom.
  rewrite dom_empty_L. apply empty_subseteq.
Qed.

Lemma update_untracked_is_noop_witness :
  update sample_globals {[ 0x314 := 1 ]} 0x100 5 = {[ 0x314 := 1 ]}
  /\ __str__ sample_data sample_repr sample_float_str sample_globals
       (update sample_globals {[ 0x314 := 1 ]} 0x100 5)
     = __str__ sample_data sample_repr sample_float_str sample_globals
         {[ 0x314 := 1 ]}
  /\ dom (run_updates sample_globals [(0x314, 1); (0x100, 5)])
     ⊆ _TRACKED_NV097_OPS sample_globals.
Proof.
  destruct (update_untracked_is_noop sample_data sample_repr sample_float_str
              sample_globals {[ 0x314 := 1 ]} 0x100 5) as (H1 & H2 & H3).
  - vm_compute. intros H. discriminate H.
  - split; [exact H1|]. split; [exact H2|]. apply H3.
Defined.

(** ** Expansion of the registry *)

Section expansion.
Context (ed : extracted_data).

Lemma add_elements_union base stride n (t : gset Z) :
  add_elements base stride n t = t ∪ add_elements base stride n ∅.
Proof.
  unfold add_elements. generalize (range n) as l. intros l. revert t.
  induction l as [|i l IH]; intros t; simpl.
  - by rewrite (right_id_L ∅ (∪)).
  - rewrite IH, (IH ({[_]} ∪ ∅)). rewrite (right_id_L ∅ (∪)).
    rewrite (assoc_L (∪)). f_equal. apply (comm_L (∪)).
Qed.

Lemma add_structs_union stride n struct_stride remaining base (t : gset Z) :
  add_structs stride n struct_stride remaining base t
  = t ∪ add_structs stride n struct_stride remaining base ∅.
Proof.
  revert base t. induction remaining as [|k IH]; intros base t; simpl.
  - by rewrite (right_id_L ∅ (∪)).
  - rewrite IH, (IH _ (add_elements _ _ _ ∅)).
    rewrite (add_elements_union _ _ _ t). by rewrite (assoc_L (∪)).
Qed.

(** What one iteration adds does not depend on what is already there. *)
Lemma populate_body_tracked g info :
  _TRACKED_NV097_OPS (populate_body ed g info)
  = _TRACKED_NV097_OPS g
    ∪ _TRACKED_NV097_OPS (populate_body ed initial_globals info).
Proof.
  unfold populate_body. destruct (base_op info) as [b|]; simpl.
  2: by rewrite (right_id_L ∅ (∪)).
  destruct (decide (b ∈ _BASE_TRACKED_NV097_OPS ed)); simpl.
  2: by rewrite (right_id_L ∅ (∪)).
  destruct info; simpl.
  - rewrite (right_id_L ∅ (∪)). apply (comm_L (∪)).
  - apply add_elements_union.
  - apply add_structs_union.
  - by rewrite (right_id_L ∅ (∪)).
Qed.

Lemma populate_body_map g info :
  _OP_TO_INFO_MAP (populate_body ed g info)
  = _OP_TO_INFO_MAP (populate_body ed initial_globals info)
    ∪ _OP_TO_INFO_MAP g.
Proof.
  unfold populate_body. destruct (base_op info) as [b|]; simpl.
  2: by rewrite (left_id_L ∅ (∪)).
  destruct (decide (b ∈ _BASE_TRACKED_NV097_OPS ed)); simpl.
  2: by rewrite (left_id_L ∅ (∪)).
  destruct info; simpl;
    by rewrite insert_empty, <- insert_union_singleton_l.
Qed.

Lemma fold_populate_tracked ops g :
  _TRACKED_NV097_OPS (fold_left (populate_body ed) ops g)
  = _TRACKED_NV097_OPS g
    ∪ _TRACKED_NV097_OPS (fold_left (populate_body ed) ops initial_globals).
Proof.
  revert g. induction ops as [|info ops IH]; intros g; simpl.
  - by rewrite (right_id_L ∅ (∪)).
  - rewrite IH, (IH (populate_body ed initial_globals info)).
    rewrite populate_body_tracked. by rewrite (assoc_L (∪)).
Qed.

Lemma fold_populate_map ops g :
  _OP_TO_INFO_MAP (fold_left (populate_body ed) ops g)
  = _OP_TO_INFO_MAP (fold_left (populate_body ed) ops initial_globals)
    ∪ _OP_TO_INFO_MAP g.
Proof.
  revert g. induction ops as [|info ops IH]; intros g; simpl.
  - by rewrite (left_id_L ∅ (∪)).
  - rewrite IH, (IH (populate_body ed initial_globals info)).
    rewrite populate_body_map. by rewrite (assoc_L (∪)).
Qed.

Lemma globals_eq (g1 g2 : globals) :
  _TRACKED_NV097_OPS g1 = _TRACKED_NV097_OPS g2 ->
  _OP_TO_INFO_MAP g1 = _OP_TO_INFO_MAP g2 ->
  g1 = g2.
Proof. destruct g1, g2; simpl; congruence. Qed.

(** Running the loop again over the same registry changes nothing. *)
Lemma fold_populate_again ops :
  let g := fold_left (populate_body ed) ops initial_globals in
  fold_left (populate_body ed) ops g = g.
Proof.
  intros g. apply globals_eq.
  - rewrite fold_populate_tracked. fold g. apply (idemp_L (∪)).
  - rewrite fold_populate_map. fold g. apply (idemp_L (∪)).
Qed.

(** A key that no registry entry carries is not in the map. *)
Lemma fold_populate_map_None ops k :
  Forall (fun info => base_op info <> Some k) ops ->
  _OP_TO_INFO_MAP (fold_left (populate_body ed) ops initial_globals) !! k
  = None.
Proof.
  induction 1 as [|info ops Hinfo _ IH]; simpl; [done|].
  rewrite fold_populate_map. apply lookup_union_None. split; [done|].
  unfold populate_body. destruct (base_op info) as [b|] eqn:Hb; [|done].
  destruct (decide (b ∈ _BASE_TRACKED_NV097_OPS ed)); [|done].
  assert (b <> k) by congruence.
  destruct info; simpl; by rewrite lookup_insert_ne.
Qed.


Lemma populate_nonempty g :
  _TRACKED_NV097_OPS g <> ∅ -> _populate_tracked_ops ed g = Ok g.
Proof.
  intros Hne. unfold _populate_tracked_ops.
  by destruct (decide (_TRACKED_NV097_OPS g = ∅)).
Qed.

(** The second call returns what the first call returned, whether or not
    the first call found anything to track. *)
Lemma populate_twice :
  _populate_tracked_ops ed initial_globals ≫= _populate_tracked_ops ed
  = _populate_tracked_ops ed initial_globals.
Proof.
  unfold _populate_tracked_ops at 2 3. simpl.
  destruct (decide ((∅ : gset Z) = ∅)) as [_|Hne]; [|done]. simpl.
  unfold _populate_tracked_ops.
  destruct (decide (_TRACKED_NV097_OPS _ = ∅)); [|done].
  f_equal. apply fold_populate_again.
Qed.

End expansion.

(** C9: [_populate_tracked_ops] is idempotent.  Called with a non-empty
    tracked set it returns at once and leaves both globals as they are;
    and any number of further calls after the first one (made at import
    time, from empty globals) leaves the tracked set and the descriptor
    map exactly as the first call produced them. *)
Theorem populate_tracked_ops_idempotent (ed : extracted_data) :
  (forall g, _TRACKED_NV097_OPS g <> ∅ -> _populate_tracked_ops ed g = Ok g)
  /\
  (forall g1 times,
     _populate_tracked_ops ed initial_globals = Ok g1 ->
     populate_times ed times g1 = Ok g1).
Proof.
  split; [apply populate_nonempty|].
  intros g1 times Hfirst.
  assert (Hagain : _populate_tracked_ops ed g1 = Ok g1).
  { pose proof (populate_twice ed) as H. by rewrite Hfirst in H. }
  induction times as [|times IH]; [done|].
  unfold populate_times in *. simpl. by rewrite IH.
Qed.

Lemma populate_tracked_ops_idempotent_witness :
  _populate_tracked_ops sample_data sample_globals = Ok sample_globals
  /\ populate_times sample_data 3 sample_globals = Ok sample_globals.
Proof.
  destruct (populate_tracked_ops_idempotent sample_data) as [H1 H2].
  split.
  - apply H1. vm_compute. intros H. discriminate H.
  - apply H2. vm_compute. reflexivity.
Defined.

(** ** Descriptors of a foreign kind *)

(** C10: when the registry holds a key of a foreign kind that is equal to
    a tracked base opcode [k] (and no later key overwrites the entry),
    expansion returns normally, records that object under [k] in the
    descriptor map and adds no opcode to the tracked set for it (the
    tracked set is the one the registry without that key yields); the
    error only shows when [get_raw_value] is called on [k]. *)
Theorem populate_records_foreign_kind
    (ed : extracted_data) (pre post : list op_info) (ty : string) (k : Z) :
  CLASS_TO_COMMAND_PROCESSOR_MAP ed !! 0x97
  = Some (pre ++ OtherKind ty (Some k) :: post) ->
  k ∈ _BASE_TRACKED_NV097_OPS ed ->
  Forall (fun info => base_op info <> Some k) post ->
  exists g,
    _populate_tracked_ops ed initial_globals = Ok g
    /\ _OP_TO_INFO_MAP g !! k = Some (OtherKind ty (Some k))
    /\ _TRACKED_NV097_OPS g
       = _TRACKED_NV097_OPS
           (fold_left (populate_body ed) (pre ++ post) initial_globals)
    /\ forall st dflt, get_raw_value g st k dflt = Raise (unsupported ty).
Proof.
  intros Hreg Hk Hpost.
  assert (Hbody : forall g,
            populate_body ed g (OtherKind ty (Some k))
            = {| _TRACKED_NV097_OPS := _TRACKED_NV097_OPS g;
                 _OP_TO_INFO_MAP :=
                   <[ k := OtherKind ty (Some k) ]> (_OP_TO_INFO_MAP g) |}).
  { intros g. unfold populate_body. simpl.
    by destruct (decide (k ∈ _BASE_TRACKED_NV097_OPS ed)). }
  eexists. split.
  { unfold _populate_tracked_ops. simpl.
    destruct (decide ((∅ : gset Z) = ∅)) as [_|Hne]; [reflexivity|done]. }
  unfold kelvin_ops. rewrite Hreg. simpl.
  rewrite !fold_left_app. simpl. rewrite Hbody.
  assert (Hmap : _OP_TO_INFO_MAP
                   (fold_left (populate_body ed) post
                      {| _TRACKED_NV097_OPS :=
                           _TRACKED_NV097_OPS
                             (fold_left (populate_body ed) pre
                                initial_globals);
                         _OP_TO_INFO_MAP :=
                           <[ k := OtherKind ty (Some k) ]>
                             (_OP_TO_INFO_MAP
                                (fold_left (populate_body ed) pre
                                   initial_globals)) |}) !! k
                 = Some (OtherKind ty (Some k))).
  { rewrite fold_populate_map. simpl.
    rewrite lookup_union_r by by apply fold_populate_map_None.
    apply lookup_insert_eq. }
  split; [exact Hmap|]. split.
  - rewrite fold_populate_tracked. simpl.
    by rewrite <- fold_populate_tracked.
  - intros st dflt. unfold get_raw_value. by rewrite Hmap.
Qed.

Lemma populate_records_foreign_kind_witness :
  exists g,
    _populate_tracked_ops foreign_data initial_globals = Ok g
    /\ _OP_TO_INFO_MAP g !! 0x314
       = Some (OtherKind "<class 'float'>" (Some 0x314))
    /\ _TRACKED_NV097_OPS g
       = _TRACKED_NV097_OPS
           (fold_left (populate_body foreign_data) ([OpInt 0x318] ++ [])
              initial_globals)
    /\ forall st dflt,
         get_raw_value g st 0x314 dflt
         = Raise (unsupported "<class 'float'>").
Proof.
  apply (populate_records_foreign_kind foreign_data [OpInt 0x318] []
           "<class 'float'>" 0x314).
  - vm_compute. reflexivity.
  - vm_compute. reflexivity.
  - constructor.
Defined.

Lemma get_raw_value_known_kind (g : globals) (st : gmap Z Z) opcode dflt :
  (forall ty k, _OP_TO_INFO_MAP g !! opcode <> Some (OtherKind ty k)) ->
  is_Ok (get_raw_value g st opcode dflt).
Proof.
  intros Hknown. unfold get_raw_value, is_Ok.
  destruct (_OP_TO_INFO_MAP g !! opcode) as [[| | |ty k]|] eqn:E; eauto.
  by destruct (Hknown ty k).
Qed.


(** ** Decoding a struct array that is absent *)

Lemma process_struct_array_absent
    (ed : extracted_data) (g : globals) (st : gmap Z Z)
    (opcode base stride n struct_stride struct_count : Z)
    (default_raw_value : option Z) (default_string_value : string) :
  _OP_TO_INFO_MAP g !! opcode
  = Some (StructStateArray base stride n struct_stride struct_count) ->
  get_raw_value g st opcode default_raw_value = Ok RawNone ->
  _process ed g st opcode default_raw_value default_string_value
  = Ok (PList (replicate (Z.to_nat n) default_string_value)).
Proof.
  intros Hinfo Hraw. unfold _process. by rewrite Hraw, Hinfo.
Qed.

(** C5 fails on the code: for a struct array of three structs of two
    elements each, with nothing stored, [_process] returns the flat list of
    two default texts that the array case returns, not three lists of
    two. *)
Theorem process_struct_array_absent_is_flat :
  _OP_TO_INFO_MAP struct_globals !! 0x3C0
  = Some (StructStateArray 0x3C0 4 2 16 3)
  /\ get_raw_value struct_globals ∅ 0x3C0 None = Ok RawNone
  /\ _process struct_data struct_globals ∅ 0x3C0 None "<UNKNOWN>"
     = Ok (PList ["<UNKNOWN>"; "<UNKNOWN>"])
  /\ _process struct_data struct_globals ∅ 0x3C0 None "<UNKNOWN>"
     <> Ok (PNested (replicate 3 (replicate 2 "<UNKNOWN>"))).
Proof.
  split; [vm_compute; reflexivity|]. split; [vm_compute; reflexivity|].
  assert (H : _process struct_data struct_globals ∅ 0x3C0 None "<UNKNOWN>"
              = Ok (PList ["<UNKNOWN>"; "<UNKNOWN>"])).
  { apply (process_struct_array_absent struct_data struct_globals ∅
             0x3C0 0x3C0 4 2 16 3 None "<UNKNOWN>");
      vm_compute; reflexivity. }
  split; [exact H|]. rewrite H. discriminate.
Qed.

(** ** Shapes of reconstructed and decoded values *)

Lemma mapM_result_Forall2 {A B} (f : A -> result B) (l : list A) :
  (forall x, x ∈ l -> is_Ok (f x)) ->
  exists ys, mapM f l = Ok ys /\ Forall2 (fun x y => f x = Ok y) l ys.
Proof.
  induction l as [|x l IH]; intros Hall.
  - exists []. split; [done|constructor].
  - destruct (Hall x) as [y Hy]; [by left|].
    destruct IH as (ys & Hys & Hrel).
    { intros z Hz. apply Hall. by right. }
    exists (y :: ys). split; [|by constructor].
    cbn. rewrite Hy. cbn. by rewrite Hys.
Qed.

Lemma mapM_result_fmap {A B} (f : A -> result B) (h : A -> B) (l : list A) :
  (forall x, x ∈ l -> f x = Ok (h x)) -> mapM f l = Ok (h <$> l).
Proof.
  induction l as [|x l IH]; intros Hall; [done|].
  cbn. rewrite (Hall x) by by left. cbn.
  rewrite IH; [done|]. intros z Hz. apply Hall. by right.
Qed.

(** A [StateArray] field reads as [None] or as a list of [n] values, each
    of them stored in the frame state when the default is [None]. *)
Lemma get_raw_value_state_array (g : globals) (st : gmap Z Z)
    opcode base stride n dflt :
  _OP_TO_INFO_MAP g !! opcode = Some (StateArray base stride n) ->
  get_raw_value g st opcode dflt = Ok RawNone
  \/ exists vs,
       get_raw_value g st opcode dflt = Ok (RawList vs)
       /\ List.length vs = Z.to_nat n
       /\ (dflt = None -> Forall (fun v => exists key, st !! key = Some v) vs).
Proof.
  intros Hinfo. unfold get_raw_value. rewrite Hinfo.
  rewrite collect_elements_mapM.
  destruct (mapM _ (range n)) as [vs|] eqn:Hvs; simpl; [|by left].
  right. exists vs. split; [done|].
  split; [apply (mapM_range_lookup _ _ _ Hvs)|].
  intros ->. apply mapM_Some in Hvs.
  induction Hvs as [|i v l vs Hv _ IH]; constructor; [|done].
  exists (base + i * stride). unfold state_get in Hv.
  by destruct (st !! (base + i * stride)).
Qed.

Lemma get_raw_value_empty_state_array (g : globals)
    opcode base stride n :
  _OP_TO_INFO_MAP g !! opcode = Some (StateArray base stride n) ->
  get_raw_value g ∅ opcode None
  = Ok (if decide (0 < n) then RawNone else RawList []).
Proof.
  intros Hinfo. unfold get_raw_value. rewrite Hinfo.
  rewrite collect_elements_mapM.
  destruct (decide (0 < n)) as [Hpos|Hneg].
  - rewrite (mapM_range_None _ n 0); [done|lia|].
    unfold state_get. by rewrite lookup_empty.
  - unfold range. by rewrite seqZ_nil by lia.
Qed.

Section decoding.
Context (ed : extracted_data).

Lemma process_elements_ints base stride i (vs : list Z) acc :
  exists out,
    process_elements ed base stride i (ItemInt <$> vs) acc = Ok out
    /\ List.length out = (List.length acc + List.length vs)%nat.
Proof.
  revert i acc. induction vs as [|v vs IH]; intros i acc; simpl.
  - exists acc. split; [done|lia].
  - destruct (IH (i + 1)
                (acc ++ [match _PROCESSORS ed !! (151, base + i * stride) with
                         | Some processor => processor 0 151 v
                         | None => ("0x" ++ format_X v)%string
                         end])) as (out & Hout & Hlen).
    exists out. split; [exact Hout|].
    rewrite Hlen, length_app. simpl. lia.
Qed.

Lemma process_structs_lists stride struct_stride base (vss : list (list Z))
    acc :
  is_Ok (process_structs ed stride struct_stride base (ItemList <$> vss) acc).
Proof.
  revert base acc. induction vss as [|vs vss IH]; intros base acc; simpl.
  - by exists acc.
  - destruct (process_elements_ints base stride 0 vs []) as (out & -> & _).
    simpl. apply IH.
Qed.

(** A [StateArray] field always decodes to a list of [n] strings. *)
Lemma process_state_array (g : globals) (st : gmap Z Z)
    opcode base stride n default_raw_value default_string_value :
  _OP_TO_INFO_MAP g !! opcode = Some (StateArray base stride n) ->
  exists l,
    _process ed g st opcode default_raw_value default_string_value
    = Ok (PList l)
    /\ List.length l = Z.to_nat n.
Proof.
  intros Hinfo. unfold _process.
  destruct (get_raw_value_state_array g st opcode base stride n
              default_raw_value Hinfo) as [->|(vs & -> & Hlen & _)];
    simpl; rewrite Hinfo.
  - eexists. split; [done|]. apply length_replicate.
  - destruct (process_elements_ints base stride 0 vs []) as (out & -> & Hout).
    simpl. exists out. split; [done|]. simpl in Hout. lia.
Qed.

(** Decoding fails for a foreign kind only. *)
Lemma process_known_kind (g : globals) (st : gmap Z Z)
    opcode default_raw_value default_string_value :
  (forall ty k, _OP_TO_INFO_MAP g !! opcode <> Some (OtherKind ty k)) ->
  is_Ok (_process ed g st opcode default_raw_value default_string_value).
Proof.
  intros Hknown.
  destruct (_OP_TO_INFO_MAP g !! opcode) as [[op|b s n|b s n ss sc|ty k]|]
    eqn:Hinfo.
  - unfold _process, get_raw_value. rewrite Hinfo. simpl.
    destruct (state_get st opcode default_raw_value); simpl; by eexists.
  - destruct (process_state_array g st opcode b s n default_raw_value
                default_string_value Hinfo) as (l & -> & _).
    by eexists.
  - unfold _process, get_raw_value. rewrite Hinfo. simpl.
    destruct (collect_structs _ _ _ _ _ _ _ _) as [vss|]; simpl.
    + destruct (process_structs_lists s ss b vss []) as [out ->].
      by eexists.
    + by eexists.
  - by destruct (Hknown ty k).
  - unfold _process, get_raw_value. rewrite Hinfo. simpl.
    destruct (state_get st opcode default_raw_value); simpl; by eexists.
Qed.

End decoding.

(** ** The texgen section *)

Section texgen.
Context (repr_str : string -> string).

Lemma string_get_lt (s : string) (i : nat) :
  (i < String.length s)%nat -> exists c, String.get i s = Some c.
Proof.
  revert i. induction s as [|c s IH]; intros i Hi; simpl in *; [lia|].
  destruct i as [|i]; [by exists c|]. apply IH. lia.
Qed.

Lemma format_getitem_lt (p : processed) (i : nat) :
  (i < processed_len p)%nat -> is_Ok (format_getitem repr_str p i).
Proof.
  intros Hi. unfold is_Ok. destruct p as [s|l|l]; simpl in *.
  - destruct (string_get_lt s i Hi) as [c ->]. eauto.
  - destruct (lookup_lt_is_Some_2 l i Hi) as [x ->]. eauto.
  - destruct (lookup_lt_is_Some_2 l i Hi) as [x ->]. eauto.
Qed.

Lemma texgen_line_lt (s_vals t_vals r_vals q_vals : processed) (i : nat) :
  (i < processed_len s_vals)%nat ->
  (processed_len s_vals <= processed_len t_vals)%nat ->
  (processed_len s_vals <= processed_len r_vals)%nat ->
  (processed_len s_vals <= processed_len q_vals)%nat ->
  exists s t r q,
    format_getitem repr_str s_vals i = Ok s
    /\ format_getitem repr_str t_vals i = Ok t
    /\ format_getitem repr_str r_vals i = Ok r
    /\ format_getitem repr_str q_vals i = Ok q
    /\ texgen_line repr_str s_vals t_vals r_vals q_vals i
       = Ok (tab ++ "S[" ++ pretty i ++ "] " ++ s ++ ", T[" ++ pretty i
             ++ "] " ++ t ++ " R[" ++ pretty i ++ "]: " ++ r ++ " Q["
             ++ pretty i ++ "]: " ++ q)%string.
Proof.
  intros Hi Ht Hr Hq. unfold texgen_line.
  destruct (format_getitem_lt s_vals i) as [s ->]; [lia|].
  destruct (format_getitem_lt t_vals i) as [t ->]; [lia|].
  destruct (format_getitem_lt r_vals i) as [r ->]; [lia|].
  destruct (format_getitem_lt q_vals i) as [q ->]; [lia|].
  by exists s, t, r, q.
Qed.

(** The generator completes when T, R and Q are no shorter than S. *)
Lemma texgen_lines_long_enough (s_vals t_vals r_vals q_vals : processed) :
  (processed_len s_vals <= processed_len t_vals)%nat ->
  (processed_len s_vals <= processed_len r_vals)%nat ->
  (processed_len s_vals <= processed_len q_vals)%nat ->
  exists lines,
    texgen_lines repr_str s_vals t_vals r_vals q_vals = Ok lines
    /\ (forallb processed_truthy [s_vals; t_vals; r_vals; q_vals] = false ->
        lines = [])
    /\ (forallb processed_truthy [s_vals; t_vals; r_vals; q_vals] = true ->
        Forall2
          (fun i line =>
             texgen_line repr_str s_vals t_vals r_vals q_vals i = Ok line)
          (seq 0 (processed_len s_vals)) lines).
Proof.
  intros Ht Hr Hq. unfold texgen_lines.
  destruct (forallb processed_truthy _) eqn:Hall.
  - destruct (mapM_result_Forall2
                (texgen_line repr_str s_vals t_vals r_vals q_vals)
                (seq 0 (processed_len s_vals))) as (lines & Hlines & Hrel).
    { intros i Hi. apply elem_of_seq in Hi.
      destruct (texgen_line_lt s_vals t_vals r_vals q_vals i)
        as (s & t & r & q & _ & _ & _ & _ & ->); [lia|done..|].
      by eexists. }
    exists lines. split; [done|]. split; [done|]. by intros _.
  - exists []. split; [done|]. split; [done|]. intros H. discriminate H.
Qed.

Lemma processed_truthy_len (p : processed) :
  processed_truthy p = true <-> (0 < processed_len p)%nat.
Proof.
  destruct p as [s|l|l]; simpl; rewrite bool_decide_eq_true.
  - destruct s; simpl; split; (done || lia).
  - destruct l; simpl; split; (done || lia).
  - destruct l; simpl; split; (done || lia).
Qed.

End texgen.

Lemma process_default_empty_state_array
    (ed : extracted_data) (g : globals) opcode base stride n :
  _OP_TO_INFO_MAP g !! opcode = Some (StateArray base stride n) ->
  process_default ed g ∅ opcode
  = Ok (PList (replicate (Z.to_nat n) "<UNKNOWN>"%string)).
Proof.
  intros Hinfo. unfold process_default, _process.
  rewrite (get_raw_value_empty_state_array g opcode base stride n Hinfo).
  simpl. rewrite Hinfo.
  destruct (decide (0 < n)) as [Hpos|Hneg]; [done|].
  simpl. by replace (Z.to_nat n) with 0%nat by lia.
Qed.

Lemma texgen_lines_all_unknown (repr_str : string -> string) (m : nat) :
  let unknown := PList (replicate m "<UNKNOWN>"%string) in
  texgen_lines repr_str unknown unknown unknown unknown
  = Ok (unknown_texgen_line <$> seq 0 m).
Proof.
  intros unknown. unfold texgen_lines.
  assert (Hlen : processed_len unknown = m) by apply length_replicate.
  destruct (decide (m = 0)%nat) as [->|Hm]; [done|].
  assert (Htruthy : processed_truthy unknown = true).
  { apply processed_truthy_len. lia. }
  assert (Hgate : forallb processed_truthy
                    [unknown; unknown; unknown; unknown] = true)
    by (cbn [forallb]; by rewrite Htruthy).
  rewrite Hgate, Hlen.
  apply mapM_result_fmap. intros i Hi. apply elem_of_seq in Hi.
  unfold texgen_line, unknown. simpl format_getitem.
  by rewrite lookup_replicate_2 by lia.
Qed.




(** ** The report completes *)

Lemma run_updates_uint32 (g : globals) (updates : list (Z * Z)) :
  Forall (fun u => uint32 u.2) updates ->
  map_Forall (fun _ v => uint32 v) (run_updates g updates).
Proof.
  unfold run_updates. generalize (∅ : gmap Z Z) (map_Forall_empty
    (fun (_ : Z) v => uint32 v)).
  intros st Hst Hall. revert st Hst.
  induction Hall as [|[nv_op nv_param] rest Hu _ IH]; intros st Hst; [done|].
  simpl. apply IH. unfold update.
  destruct (decide (nv_op ∈ _TRACKED_NV097_OPS g)); [|done].
  by apply map_Forall_insert_2.
Qed.

Lemma as_float_uint32 (v : Z) : uint32 v -> is_Ok (as_float v).
Proof.
  intros Hv. unfold as_float, struct_pack_I.
  destruct (decide (0 <= v < 2 ^ 32)) as [_|Hout]; [|by destruct Hout].
  by eexists.
Qed.

Lemma float_at_uint32 (vs : list Z) (i : nat) :
  Forall uint32 vs -> (i < List.length vs)%nat ->
  is_Ok (float_at (RawList vs) i).
Proof.
  intros Hall Hi. unfold float_at. simpl.
  destruct (lookup_lt_is_Some_2 vs i Hi) as [v Hv]. rewrite Hv. simpl.
  apply as_float_uint32. by apply (Forall_lookup_1 _ _ _ _ Hall Hv).
Qed.

Section report.
Context (ed : extracted_data).
Context (repr_str : string -> string) (float_str : float32 -> string).
Context (g : globals) (st : gmap Z Z).
Context (Hready : report_ready ed g).
Context (Hstate : map_Forall (fun _ v => uint32 v) st).

Local Ltac known_raw opcode dflt v :=
  destruct (get_raw_value_known_kind g st opcode dflt
              (ready_kinds ed g Hready opcode)) as [v ->];
  cbn [mbind result_bind].

Local Ltac known_processed opcode v :=
  destruct (process_known_kind ed g st opcode None "<UNKNOWN>"%string
              (ready_kinds ed g Hready opcode)) as [v ->];
  cbn [mbind result_bind].

Lemma lighting_section_Ok : is_Ok (lighting_section ed repr_str g st).
Proof.
  unfold lighting_section, process_default.
  known_raw (NV097_SET_LIGHTING_ENABLE ed) (Some 0) lighting.
  destruct (raw_ne_zero lighting); [|by eexists].
  known_raw (NV097_SET_TWO_SIDE_LIGHT_EN ed) (Some 0) two_sided.
  known_processed (NV097_SET_COLOR_MATERIAL ed) color_material.
  known_processed (NV097_SET_LIGHT_CONTROL ed) light_control.
  known_processed (NV097_SET_LIGHT_ENABLE_MASK ed) light_enable.
  by eexists.
Qed.

Lemma fog_section_Ok : is_Ok (fog_section ed repr_str g st).
Proof.
  unfold fog_section, process_default.
  known_raw (NV097_SET_SPECULAR_ENABLE ed) (Some 0) specular.
  known_raw (NV097_SET_FOG_ENABLE ed) (Some 0) fog.
  destruct (raw_ne_zero fog).
  - known_processed (NV097_SET_FOG_GEN_MODE ed) mode.
    known_processed (NV097_SET_SKIN_MODE ed) skin.
    by eexists.
  - cbn [mbind result_bind].
    known_processed (NV097_SET_SKIN_MODE ed) skin.
    by eexists.
Qed.

Lemma point_params_lines_Ok (vs : list Z) :
  Forall uint32 vs -> (8 <= List.length vs)%nat ->
  is_Ok (point_params_lines float_str (RawList vs)).
Proof.
  intros Hall Hlen. unfold point_params_lines.
  destruct (raw_truthy (RawList vs)); [|by eexists].
  destruct (float_at_uint32 vs 0 Hall) as [a ->]; [lia|].
  destruct (float_at_uint32 vs 1 Hall) as [b ->]; [lia|].
  destruct (float_at_uint32 vs 2 Hall) as [c ->]; [lia|].
  destruct (float_at_uint32 vs 3 Hall) as [size_range ->]; [lia|].
  destruct (float_at_uint32 vs 6 Hall) as [scale_bias ->]; [lia|].
  destruct (float_at_uint32 vs 7 Hall) as [min_size ->]; [lia|].
  by eexists.
Qed.

Lemma point_section_Ok : is_Ok (point_section ed repr_str float_str g st).
Proof.
  unfold point_section, process_default.
  known_raw (NV097_SET_POINT_PARAMS_ENABLE ed) (Some 0) enable.
  destruct (raw_ne_zero enable).
  - known_processed (NV097_SET_POINT_SIZE ed) point_size.
    destruct (ready_point_params ed g Hready) as (base & stride & n & Hinfo & Hn).
    assert (Hlines : exists params lines,
              get_raw_value g st (NV097_SET_POINT_PARAMS ed) None = Ok params
              /\ point_params_lines float_str params = Ok lines).
    { destruct (get_raw_value_state_array g st _ base stride n None Hinfo)
        as [Hnone|(vs & Hvs & Hlen & Hfrom)].
      - exists RawNone, []. by split.
      - destruct (point_params_lines_Ok vs) as [lines Hl].
        + specialize (Hfrom eq_refl).
          eapply Forall_impl; [exact Hfrom|].
          intros v [key Hkey]. by apply (Hstate key v).
        + lia.
        + by exists (RawList vs), lines. }
    destruct Hlines as (params & lines & -> & Hl).
    cbn [mbind result_bind]. rewrite Hl. cbn [mbind result_bind].
    known_raw (NV097_SET_POINT_SMOOTH_ENABLE ed) (Some 0) smooth.
    by eexists.
  - cbn [mbind result_bind].
    known_raw (NV097_SET_POINT_SMOOTH_ENABLE ed) (Some 0) smooth.
    by eexists.
Qed.

Lemma texgen_section_Ok : is_Ok (texgen_section ed repr_str g st).
Proof.
  unfold texgen_section, process_default.
  destruct (ready_texgen ed g Hready)
    as (bs & ss & ns & bt & st' & nt & br & sr & nr & bq & sq & nq
        & Hs & Ht & Hr & Hq & Hst & Hsr & Hsq).
  destruct (process_state_array ed g st _ bs ss ns None "<UNKNOWN>"%string Hs)
    as (vals_s & -> & Hls).
  destruct (process_state_array ed g st _ bt st' nt None "<UNKNOWN>"%string Ht)
    as (vals_t & -> & Hlt).
  destruct (process_state_array ed g st _ br sr nr None "<UNKNOWN>"%string Hr)
    as (vals_r & -> & Hlr).
  destruct (process_state_array ed g st _ bq sq nq None "<UNKNOWN>"%string Hq)
    as (vals_q & -> & Hlq).
  cbn [mbind result_bind].
  destruct (texgen_lines_long_enough repr_str (PList vals_s) (PList vals_t)
              (PList vals_r) (PList vals_q)) as (lines & -> & _);
    [simpl; lia..|].
  by eexists.
Qed.

Lemma texture_matrix_section_Ok : is_Ok (texture_matrix_section ed g st).
Proof.
  unfold texture_matrix_section.
  destruct (ready_texture_matrix ed g Hready) as (base & stride & n & Hinfo).
  destruct (get_raw_value_state_array g st _ base stride n None Hinfo)
    as [->|(vs & -> & _)]; cbn [mbind result_bind].
  - by eexists.
  - destruct (raw_truthy (RawList vs)); by eexists.
Qed.

Lemma report_Ok : is_Ok (__str__ ed repr_str float_str g st).
Proof.
  unfold __str__, report_lines.
  destruct lighting_section_Ok as [lighting ->].
  destruct fog_section_Ok as [fog ->].
  destruct point_section_Ok as [point ->].
  destruct texgen_section_Ok as [texgen ->].
  destruct texture_matrix_section_Ok as [texture_matrix ->].
  by eexists.
Qed.

End report.

Lemma known_kinds_ready (g : globals) :
  map_Forall (fun _ info => known_kind info = true) (_OP_TO_INFO_MAP g) ->
  forall opcode ty k, _OP_TO_INFO_MAP g !! opcode <> Some (OtherKind ty k).
Proof.
  intros Hall opcode ty k Hinfo. by specialize (Hall opcode _ Hinfo).
Qed.

Lemma sample_globals_ready : report_ready sample_data sample_globals.
Proof.
  split.
  - apply known_kinds_ready, map_Forall_to_list.
    vm_compute. repeat constructor.
  - exists 0xA30, 4, 8. split; [vm_compute; reflexivity|lia].
  - exists 0x3C0, 16, 4, 0x3C4, 16, 4, 0x3C8, 16, 4, 0x3CC, 16, 4.
    repeat (split; [vm_compute; reflexivity|]).
    repeat split; lia.
  - exists 0x420, 4, 4. vm_compute; reflexivity.
Qed.

(** C7: given a registry of the shape the report relies on
    ([report_ready]: known kinds only, the point parameters an array of at
    least eight elements, the texgen and texture-matrix fields arrays),
    after any finite sequence of [update] calls with 32-bit unsigned
    parameters, whatever the opcodes, [__str__] returns a text: no
    sequence of updates makes it raise. *)
Theorem report_always_completes
    (ed : extracted_data) (repr_str : string -> string)
    (float_str : float32 -> string)
    (g : globals) (updates : list (Z * Z)) :
  report_ready ed g ->
  Forall (fun u => uint32 u.2) updates ->
  exists text,
    __str__ ed repr_str float_str g (run_updates g updates) = Ok text.
Proof.
  intros Hready Hupdates.
  apply (report_Ok ed repr_str float_str g (run_updates g updates) Hready).
  by apply run_updates_uint32.
Qed.

Lemma report_always_completes_witness :
  exists text,
    __str__ sample_data sample_repr sample_float_str sample_globals
      (run_updates sample_globals sample_updates) = Ok text.
Proof.
  apply (report_always_completes sample_data sample_repr sample_float_str
           sample_globals sample_updates).
  - exact sample_globals_ready.
  - unfold sample_updates, uint32.
    repeat (constructor; [simpl; lia|]). constructor.
Defined.

(** ** [as_float] at the level of bit patterns *)

(** Packing most significant byte first and reading the bytes back in the
    same order gives the 32-bit word that was packed. *)
Lemma bytes_reassemble (v : Z) :
  0 <= v < 2 ^ 32 ->
  Z.lor (Z.shiftl (Z.land (Z.shiftr v 24) 255) 24)
    (Z.lor (Z.shiftl (Z.land (Z.shiftr v 16) 255) 16)
       (Z.lor (Z.shiftl (Z.land (Z.shiftr v 8) 255) 8) (Z.land v 255)))
  = v.
Proof.
  intros Hv. apply Z.bits_inj'. intros n Hn.
  change 255 with (Z.ones 8).
  rewrite !Z.lor_spec. rewrite !Z.shiftl_spec by exact Hn.
  rewrite !Z.land_spec.
  assert (Hhigh : 32 <= n -> Z.testbit v n = false).
  { intros Hge. destruct (decide (v = 0)) as [->|Hnz].
    - apply Z.bits_0.
    - apply Z.bits_above_log2; [lia|].
      assert (Z.log2 v < 32) by (apply Z.log2_lt_pow2; lia). lia. }
  destruct (decide (n < 8)).
  { rewrite !(Z.testbit_neg_r _ (n - 24)), !(Z.testbit_neg_r _ (n - 16)),
      !(Z.testbit_neg_r _ (n - 8)) by lia.
    rewrite Z.ones_spec_low by lia. simpl. by rewrite andb_true_r. }
  rewrite (Z.ones_spec_high 8 n) by lia. rewrite andb_false_r, orb_false_r.
  destruct (decide (n < 16)).
  { rewrite !(Z.testbit_neg_r _ (n - 24)), !(Z.testbit_neg_r _ (n - 16))
      by lia.
    rewrite Z.shiftr_spec, Z.ones_spec_low by lia. simpl.
    rewrite andb_true_r. f_equal. lia. }
  rewrite (Z.ones_spec_high 8 (n - 8)) by lia.
  rewrite andb_false_r, orb_false_r.
  destruct (decide (n < 24)).
  { rewrite !(Z.testbit_neg_r _ (n - 24)) by lia.
    rewrite Z.shiftr_spec, Z.ones_spec_low by lia. simpl.
    rewrite andb_true_r. f_equal. lia. }
  rewrite (Z.ones_spec_high 8 (n - 16)) by lia.
  rewrite andb_false_r, orb_false_r.
  rewrite Z.shiftr_spec by lia.
  replace (n - 24 + 24) with n by lia.
  destruct (decide (n < 32)).
  - rewrite Z.ones_spec_low by lia. by rewrite andb_true_r.
  - rewrite Hhigh by lia. done.
Qed.

(** On a 32-bit unsigned argument [as_float] reads the sign, exponent and
    fraction from the bits 31, 30..23 and 22..0 of the argument itself (a
    NaN keeps none of them); outside that range [struct.pack] raises. *)
Lemma as_float_fields (v : Z) :
  uint32 v ->
  as_float v
  = Ok (float32_of_fields (Z.testbit v 31) (Z.land (Z.shiftr v 23) 255)
          (Z.land v (2 ^ 23 - 1))).
Proof.
  intros Hv. unfold as_float, struct_pack_I.
  destruct (decide (0 <= v < 2 ^ 32)) as [_|Hout]; [|by destruct Hout].
  cbn [mbind result_bind struct_unpack_f].
  by rewrite (bytes_reassemble v Hv).
Qed.

Lemma as_float_out_of_range (v : Z) :
  ~ uint32 v -> as_float v = Raise StructError.
Proof.
  intros Hv. unfold as_float, struct_pack_I.
  by destruct (decide (0 <= v < 2 ^ 32)).
Qed.

(** ** The opcodes expansion tracks for arrays and struct arrays *)

Lemma elem_of_add_elements base stride n (t : gset Z) (x : Z) :
  x ∈ add_elements base stride n t
  <-> x ∈ t \/ exists i, 0 <= i < n /\ x = base + i * stride.
Proof.
  unfold add_elements, range.
  assert (Hfold : forall (l : list Z) (t : gset Z),
            x ∈ fold_left (fun t i => {[ base + i * stride ]} ∪ t) l t
            <-> x ∈ t \/ exists i, i ∈ l /\ x = base + i * stride).
  { induction l as [|i l IH]; intros t'; simpl.
    - split; [by left|]. intros [H|(i & Hi & _)]; [done|].
      by apply elem_of_nil in Hi.
    - rewrite IH, elem_of_union, elem_of_singleton. split.
      + intros [[->|H]|(j & Hj & ->)].
        * right. exists i. split; [by left|done].
        * by left.
        * right. exists j. split; [by right|done].
      + intros [H|(j & Hj & ->)]; [by left; right|].
        apply elem_of_cons in Hj. destruct Hj as [->|Hj].
        * by left; left.
        * right. by exists j. }
  rewrite Hfold. split.
  - intros [H|(i & Hi & ->)]; [by left|]. right. exists i.
    apply elem_of_seqZ in Hi. split; [lia|done].
  - intros [H|(i & Hi & ->)]; [by left|]. right. exists i.
    split; [|done]. apply elem_of_seqZ. lia.
Qed.

Lemma elem_of_add_structs stride n struct_stride remaining base
    (t : gset Z) (x : Z) :
  x ∈ add_structs stride n struct_stride remaining base t
  <-> x ∈ t
      \/ exists j i, 0 <= j < Z.of_nat remaining /\ 0 <= i < n
                     /\ x = base + j * struct_stride + i * stride.
Proof.
  revert base t. induction remaining as [|k IH]; intros base t.
  - simpl. split; [by left|]. intros [H|(j & i & Hj & _)]; [done|lia].
  - cbn [add_structs]. rewrite IH, elem_of_add_elements. split.
    + intros [[H|(i & Hi & ->)]|(j & i & Hj & Hi & ->)].
      * by left.
      * right. exists 0, i. repeat split; lia.
      * right. exists (j + 1), i. repeat split; lia.
    + intros [H|(j & i & Hj & Hi & ->)]; [by left; left|].
      destruct (decide (j = 0)) as [->|Hnz].
      * left. right. exists i. split; [done|lia].
      * right. exists (j - 1), i. repeat split; lia.
Qed.

(** After the import-time call, every element opcode of a tracked struct
    array is accepted by [update]. *)
Lemma struct_array_elements_tracked
    (ed : extracted_data) (pre post : list op_info)
    (base stride n struct_stride struct_count j i : Z) :
  CLASS_TO_COMMAND_PROCESSOR_MAP ed !! 0x97
  = Some (pre ++ StructStateArray base stride n struct_stride struct_count
                 :: post) ->
  base ∈ _BASE_TRACKED_NV097_OPS ed ->
  0 <= j < struct_count -> 0 <= i < n ->
  base + j * struct_stride + i * stride
  ∈ _TRACKED_NV097_OPS (populated ed).
Proof.
  intros Hreg Hbase Hj Hi. unfold populated, _populate_tracked_ops. simpl.
  destruct (decide ((∅ : gset Z) = ∅)) as [_|Hne]; [|done].
  unfold kelvin_ops. rewrite Hreg. simpl.
  rewrite fold_left_app. simpl.
  rewrite fold_populate_tracked. apply elem_of_union. left.
  unfold populate_body. simpl.
  destruct (decide (base ∈ _BASE_TRACKED_NV097_OPS ed)); [|done]. simpl.
  apply elem_of_add_structs. right. exists j, i. repeat split; lia.
Qed.

(** ** The report does not catch the error of a foreign kind *)



Section propagation.
Context (ed : extracted_data).
Context (repr_str : string -> string) (float_str : float32 -> string).
Context (g : globals) (st : gmap Z Z).















End propagation.



(** * Further properties of the code *)

(** ** [update] as a keyed overwrite *)

(** X1: the last write wins.  Two updates of the same opcode leave the frame
    state, and so the report, as the second one alone does; after an update
    the state holds the new parameter at a tracked opcode and is unchanged
    at an untracked one. *)
Theorem update_last_write_wins
    (ed : extracted_data) (repr_str : string -> string)
    (float_str : float32 -> string)
    (g : globals) (st : gmap Z Z) (nv_op p1 p2 : Z) :
  update g (update g st nv_op p1) nv_op p2 = update g st nv_op p2
  /\ update g st nv_op p2 !! nv_op
     = (if decide (nv_op ∈ _TRACKED_NV097_OPS g) then Some p2
        else st !! nv_op)
  /\ __str__ ed repr_str float_str g (update g (update g st nv_op p1) nv_op p2)
     = __str__ ed repr_str float_str g (update g st nv_op p2).
Proof.
  assert (Hsame : update g (update g st nv_op p1) nv_op p2
                  = update g st nv_op p2).
  { unfold update. destruct (decide (nv_op ∈ _TRACKED_NV097_OPS g)); [|done].
    apply insert_insert_eq. }
  split; [exact Hsame|]. split; [|by rewrite Hsame].
  unfold update. destruct (decide (nv_op ∈ _TRACKED_NV097_OPS g)); [|done].
  apply lookup_insert_eq.
Qed.

(** X2: updates of two different opcodes commute, and an update leaves
    every other opcode of the frame state as it was. *)
Theorem update_commutes
    (g : globals) (st : gmap Z Z) (op1 p1 op2 p2 : Z) :
  op1 <> op2 ->
  update g (update g st op1 p1) op2 p2 = update g (update g st op2 p2) op1 p1
  /\ update g st op1 p1 !! op2 = st !! op2.
Proof.
  intros Hne. unfold update.
  destruct (decide (op1 ∈ _TRACKED_NV097_OPS g)),
    (decide (op2 ∈ _TRACKED_NV097_OPS g)); split; try done.
  - by apply insert_insert_ne.
  - by apply lookup_insert_ne.
  - by apply lookup_insert_ne.
Qed.

Lemma update_commutes_witness :
  update sample_globals (update sample_globals ∅ 0x314 1) 0x318 2
  = update sample_globals (update sample_globals ∅ 0x318 2) 0x314 1
  /\ update sample_globals ∅ 0x314 1 !! 0x318 = (∅ : gmap Z Z) !! 0x318.
Proof.
  apply (update_commutes sample_globals ∅ 0x314 1 0x318 2). lia.
Defined.

(** ** What [get_raw_value] reads *)

Lemma mapM_option_ext_in {A B} (f h : A -> option B) (l : list A) :
  (forall x, x ∈ l -> f x = h x) -> mapM f l = mapM h l.
Proof.
  induction l as [|x l IH]; intros Hext; [done|].
  cbn. rewrite (Hext x) by by left.
  rewrite IH; [done|]. intros y Hy. apply Hext. by right.
Qed.

Lemma state_get_agree (st1 st2 : gmap Z Z) key dflt :
  st1 !! key = st2 !! key -> state_get st1 key dflt = state_get st2 key dflt.
Proof. intros H. unfold state_get. by rewrite H. Qed.

Lemma update_lookup_other (g : globals) (st : gmap Z Z) nv_op nv_param x :
  nv_op <> x -> update g st nv_op nv_param !! x = st !! x.
Proof.
  intros Hne. unfold update.
  destruct (decide (nv_op ∈ _TRACKED_NV097_OPS g)); [|done].
  by apply lookup_insert_ne.
Qed.

(** The value of a field only depends on the frame state at the opcodes of
    that field. *)
Lemma get_raw_value_agree (g : globals) (st1 st2 : gmap Z Z) opcode dflt :
  (forall x, field_opcodes g opcode x -> st1 !! x = st2 !! x) ->
  get_raw_value g st1 opcode dflt = get_raw_value g st2 opcode dflt.
Proof.
  unfold field_opcodes, get_raw_value. intros Hagree.
  destruct (_OP_TO_INFO_MAP g !! opcode)
    as [[op|base stride n|base stride n struct_stride struct_count|ty k]|].
  - by rewrite (state_get_agree st1 st2 opcode dflt (Hagree _ eq_refl)).
  - rewrite !collect_elements_mapM.
    rewrite (mapM_option_ext_in
               (fun i => state_get st1 (base + i * stride) dflt)
               (fun i => state_get st2 (base + i * stride) dflt)); [done|].
    intros i Hi. apply elem_of_seqZ in Hi. apply state_get_agree, Hagree.
    simpl. exists i. split; [lia|done].
  - pose proof (collect_structs_mapM st1 dflt stride n struct_stride
                  (Z.to_nat struct_count) base 0 []) as H1.
    pose proof (collect_structs_mapM st2 dflt stride n struct_stride
                  (Z.to_nat struct_count) base 0 []) as H2.
    replace (base + 0 * struct_stride) with base in H1, H2 by lia.
    rewrite H1, H2. clear H1 H2.
    rewrite (mapM_option_ext_in
               (fun j => mapM (fun i => state_get st1
                    (base + j * struct_stride + i * stride) dflt) (range n))
               (fun j => mapM (fun i => state_get st2
                    (base + j * struct_stride + i * stride) dflt) (range n)));
      [done|].
    intros j Hj. apply elem_of_seqZ in Hj.
    apply mapM_option_ext_in. intros i Hi. apply elem_of_seqZ in Hi.
    apply state_get_agree, Hagree. simpl. exists j, i.
    repeat split; lia.
  - done.
  - by rewrite (state_get_agree st1 st2 opcode dflt (Hagree _ eq_refl)).
Qed.

(** X3: an update of an opcode that is not one of the opcodes of a field
    changes neither the raw value [get_raw_value] reconstructs for that
    field nor the text [_process] decodes for it. *)
Theorem update_elsewhere_keeps_field
    (ed : extracted_data) (g : globals) (st : gmap Z Z)
    (opcode nv_op nv_param : Z) :
  ~ field_opcodes g opcode nv_op ->
  (forall dflt,
     get_raw_value g (update g st nv_op nv_param) opcode dflt
     = get_raw_value g st opcode dflt)
  /\ (forall default_raw_value default_string_value,
        _process ed g (update g st nv_op nv_param) opcode default_raw_value
          default_string_value
        = _process ed g st opcode default_raw_value default_string_value).
Proof.
  intros Hother.
  assert (Hraw : forall dflt,
            get_raw_value g (update g st nv_op nv_param) opcode dflt
            = get_raw_value g st opcode dflt).
  { intros dflt. apply get_raw_value_agree. intros x Hx.
    apply update_lookup_other. intros ->. by apply Hother. }
  split; [exact Hraw|].
  intros dr ds. unfold _process. by rewrite Hraw.
Qed.

Lemma update_elsewhere_keeps_field_witness :
  get_raw_value sample_globals
    (update sample_globals {[ 0xA30 := 5 ]} 0x314 1) 0xA30 (Some 0)
  = get_raw_value sample_globals {[ 0xA30 := 5 ]} 0xA30 (Some 0).
Proof.
  destruct (update_elsewhere_keeps_field sample_data sample_globals
              {[ 0xA30 := 5 ]} 0xA30 0x314 1) as [H _].
  - unfold field_opcodes.
    replace (_OP_TO_INFO_MAP sample_globals !! 0xA30)
      with (Some (StateArray 0xA30 4 8)) by (vm_compute; reflexivity).
    simpl. intros (i & Hi & Heq). lia.
  - apply H.
Defined.

(** X4: with a default other than [None], [get_raw_value] never returns
    [None], whatever the kind of the descriptor and whatever the frame state
    holds: a scalar reads as an int, an array as a list of [n] ints and a
    struct array as [struct_count] lists. *)
Theorem get_raw_value_default_never_none
    (g : globals) (st : gmap Z Z) (opcode d : Z) (r : raw_value) :
  get_raw_value g st opcode (Some d) = Ok r ->
  r <> RawNone
  /\ match _OP_TO_INFO_MAP g !! opcode with
     | None | Some (OpInt _) => r = RawInt (default d (st !! opcode))
     | Some (StateArray base stride n) =>
         r = RawList ((fun i => default d (st !! (base + i * stride)))
                      <$> range n)
     | Some (StructStateArray base stride n struct_stride struct_count) =>
         r = RawNested
               ((fun j =>
                   (fun i =>
                      default d
                        (st !! (base + j * struct_stride + i * stride)))
                   <$> range n) <$> range struct_count)
     | Some (OtherKind _ _) => False
     end.
Proof.
  assert (Helems : forall base stride n,
            mapM (fun i => state_get st (base + i * stride) (Some d)) (range n)
            = Some ((fun i => default d (st !! (base + i * stride)))
                    <$> range n)).
  { intros base stride n. apply mapM_Some.
    induction (range n) as [|i l IH]; simpl.
    - constructor.
    - constructor; [|done]. unfold state_get. by destruct (st !! _). }
  unfold get_raw_value.
  destruct (_OP_TO_INFO_MAP g !! opcode)
    as [[op|base stride n|base stride n struct_stride struct_count|ty k]|];
    intros Hr.
  - unfold state_get in Hr. destruct (st !! opcode); by inversion Hr.
  - rewrite collect_elements_mapM, Helems in Hr. by inversion Hr.
  - pose proof (collect_structs_mapM st (Some d) stride n struct_stride
                  (Z.to_nat struct_count) base 0 []) as Hloop.
    replace (base + 0 * struct_stride) with base in Hloop by lia.
    replace (seqZ 0 (Z.of_nat (Z.to_nat struct_count)))
      with (range struct_count)
      in Hloop by (unfold range, seqZ; by rewrite Nat2Z.id).
    rewrite Hloop in Hr. clear Hloop.
    assert (Hstructs :
      mapM (fun j => mapM (fun i => state_get st
              (base + j * struct_stride + i * stride) (Some d)) (range n))
        (range struct_count)
      = Some ((fun j => (fun i => default d
                 (st !! (base + j * struct_stride + i * stride)))
               <$> range n) <$> range struct_count)).
    { clear Hr. apply mapM_Some.
      induction (range struct_count) as [|j l IH]; simpl.
      - constructor.
      - constructor; [|done].
        apply (Helems (base + j * struct_stride) stride n). }
    rewrite Hstructs in Hr. by inversion Hr.
  - discriminate Hr.
  - unfold state_get in Hr. destruct (st !! opcode); by inversion Hr.
Qed.

Lemma get_raw_value_default_never_none_witness :
  RawNested [[0; 0]; [0; 9]; [0; 0]] <> RawNone.
Proof.
  apply (get_raw_value_default_never_none struct_globals {[ 0x3D4 := 9 ]}
           0x3C0 0 (RawNested [[0; 0]; [0; 9]; [0; 0]])).
  vm_compute. reflexivity.
Defined.

(** ** What expansion produces *)

Section populated.
Context (ed : extracted_data).

Lemma populate_body_initial_tracked (info : op_info) (x : Z) :
  x ∈ _TRACKED_NV097_OPS (populate_body ed initial_globals info)
  <-> exists b, base_op info = Some b /\ b ∈ _BASE_TRACKED_NV097_OPS ed
                /\ expands_to info x.
Proof.
  unfold populate_body.
  destruct (base_op info) as [b|] eqn:Hb.
  2: { simpl. split; [intros H; by apply elem_of_empty in H|].
       by intros (b & Hnone & _). }
  destruct (decide (b ∈ _BASE_TRACKED_NV097_OPS ed)) as [Hin|Hout].
  2: { simpl. split; [intros H; by apply elem_of_empty in H|].
       intros (b' & Hb' & Hin & _). congruence. }
  destruct info as [op|base stride n|base stride n struct_stride struct_count
                    |ty k]; simpl.
  - rewrite elem_of_union, elem_of_singleton. split.
    + intros [->|H]; [by exists b|by apply elem_of_empty in H].
    + intros (_ & _ & _ & ->). by left.
  - rewrite elem_of_add_elements. split.
    + intros [H|H]; [by apply elem_of_empty in H|by exists b].
    + intros (_ & _ & _ & H). by right.
  - rewrite elem_of_add_structs. split.
    + intros [H|(j & i & Hj & Hi & ->)]; [by apply elem_of_empty in H|].
      exists b. repeat split; [done..|]. exists j, i. repeat split; lia.
    + intros (_ & _ & _ & j & i & Hj & Hi & ->). right.
      exists j, i. repeat split; lia.
  - split; [intros H; by apply elem_of_empty in H|].
    by intros (_ & _ & _ & []).
Qed.

Lemma fold_populate_initial_tracked (ops : list op_info) (x : Z) :
  x ∈ _TRACKED_NV097_OPS (fold_left (populate_body ed) ops initial_globals)
  <-> exists info, info ∈ ops
        /\ exists b, base_op info = Some b /\ b ∈ _BASE_TRACKED_NV097_OPS ed
                     /\ expands_to info x.
Proof.
  induction ops as [|info ops IH].
  - simpl. split; [intros H; by apply elem_of_empty in H|].
    intros (info & Hin & _). by apply elem_of_nil in Hin.
  - cbn [fold_left]. rewrite fold_populate_tracked, elem_of_union.
    rewrite IH, populate_body_initial_tracked. split.
    + intros [H|(info' & Hin & H)].
      * exists info. split; [by left|done].
      * exists info'. split; [by right|done].
    + intros (info' & Hin & H). apply elem_of_cons in Hin.
      destruct Hin as [->|Hin]; [by left|]. right. by exists info'.
Qed.

Lemma populate_body_initial_map (info info' : op_info) (k : Z) :
  _OP_TO_INFO_MAP (populate_body ed initial_globals info) !! k = Some info'
  <-> info' = info /\ base_op info = Some k
      /\ k ∈ _BASE_TRACKED_NV097_OPS ed.
Proof.
  unfold populate_body.
  destruct (base_op info) as [b|] eqn:Hb.
  2: { simpl. rewrite lookup_empty. split; [done|]. by intros (_ & ? & _). }
  destruct (decide (b ∈ _BASE_TRACKED_NV097_OPS ed)) as [Hin|Hout].
  2: { simpl. rewrite lookup_empty. split; [done|].
       intros (_ & Hk & Hin). congruence. }
  assert (Hmap : _OP_TO_INFO_MAP
                   match info with
                   | OpInt op =>
                       {| _TRACKED_NV097_OPS := {[op]} ∪ ∅;
                          _OP_TO_INFO_MAP := <[b:=info]> ∅ |}
                   | StateArray base stride n =>
                       {| _TRACKED_NV097_OPS := add_elements base stride n ∅;
                          _OP_TO_INFO_MAP := <[b:=info]> ∅ |}
                   | StructStateArray base stride n struct_stride
                       struct_count =>
                       {| _TRACKED_NV097_OPS :=
                            add_structs stride n struct_stride
                              (Z.to_nat struct_count) base ∅;
                          _OP_TO_INFO_MAP := <[b:=info]> ∅ |}
                   | OtherKind _ _ =>
                       {| _TRACKED_NV097_OPS := ∅;
                          _OP_TO_INFO_MAP := <[b:=info]> ∅ |}
                   end = <[b:=info]> ∅) by by destruct info.
  simpl. rewrite Hmap. rewrite lookup_insert_Some, lookup_empty. split.
  - intros [[-> ->]|[_ ?]]; [done|done].
  - intros (-> & Hk & _). left. split; congruence.
Qed.

Lemma fold_populate_initial_map (ops : list op_info) (k : Z) info :
  _OP_TO_INFO_MAP (fold_left (populate_body ed) ops initial_globals) !! k
  = Some info ->
  info ∈ ops /\ base_op info = Some k /\ k ∈ _BASE_TRACKED_NV097_OPS ed.
Proof.
  induction ops as [|info0 ops IH].
  - simpl. by rewrite lookup_empty.
  - cbn [fold_left]. rewrite fold_populate_map.
    intros H. apply lookup_union_Some_raw in H.
    destruct H as [H|[_ H]].
    + destruct (IH H) as (Hin & Hrest). split; [by right|done].
    + apply populate_body_initial_map in H. destruct H as (-> & Hrest).
      split; [by left|done].
Qed.

(** The entry of a base opcode that comes last in the registry is the one
    the descriptor map holds. *)
Lemma fold_populate_last (pre post : list op_info) info (k : Z) :
  base_op info = Some k ->
  k ∈ _BASE_TRACKED_NV097_OPS ed ->
  Forall (fun later => base_op later <> Some k) post ->
  _OP_TO_INFO_MAP
    (fold_left (populate_body ed) (pre ++ info :: post) initial_globals) !! k
  = Some info.
Proof.
  intros Hk Hin Hpost. rewrite fold_left_app. cbn [fold_left].
  rewrite fold_populate_map.
  rewrite lookup_union_r by by apply fold_populate_map_None.
  rewrite populate_body_map. apply lookup_union_Some_l.
  by apply populate_body_initial_map.
Qed.

Lemma populated_fold :
  populated ed = fold_left (populate_body ed) (kelvin_ops ed) initial_globals.
Proof.
  unfold populated, _populate_tracked_ops. simpl.
  by destruct (decide ((∅ : gset Z) = ∅)).
Qed.

End populated.

(** X5: after the import-time call, an opcode is tracked exactly when some
    registry entry whose base opcode is in the interest set stands for it:
    the entry itself for a scalar, [base + i * stride] with [i] in
    [0, num_elements) for an array, [base + j * struct_stride + i * stride]
    for a struct array.  A foreign kind contributes nothing. *)
Theorem tracked_ops_characterisation (ed : extracted_data) (x : Z) :
  x ∈ _TRACKED_NV097_OPS (populated ed)
  <-> exists info,
        info ∈ kelvin_ops ed
        /\ exists b, base_op info = Some b
                     /\ b ∈ _BASE_TRACKED_NV097_OPS ed
                     /\ expands_to info x.
Proof.
  rewrite populated_fold. apply fold_populate_initial_tracked.
Qed.

(** X6: after the import-time call, every entry of the descriptor map is a
    registry entry filed under its own base opcode, and that opcode is in
    the interest set; so the descriptor map never holds an opcode outside
    the eighteen tracked base opcodes. *)
Theorem descriptor_map_keys
    (ed : extracted_data) (k : Z) (info : op_info) :
  _OP_TO_INFO_MAP (populated ed) !! k = Some info ->
  info ∈ kelvin_ops ed /\ base_op info = Some k
  /\ k ∈ _BASE_TRACKED_NV097_OPS ed.
Proof.
  rewrite populated_fold. apply fold_populate_initial_map.
Qed.

Lemma descriptor_map_keys_witness :
  StateArray 0xA30 4 8 ∈ kelvin_ops sample_data
  /\ base_op (StateArray 0xA30 4 8) = Some 0xA30
  /\ 0xA30 ∈ _BASE_TRACKED_NV097_OPS sample_data.
Proof.
  apply (descriptor_map_keys sample_data 0xA30 (StateArray 0xA30 4 8)).
  vm_compute. reflexivity.
Defined.

(** ** Writing a field and reading it back *)

Section round_trip.
Context (g : globals).

Local Abbreviation write := (fun st '(nv_op, nv_param) => update g st nv_op nv_param).

Lemma fold_array_updates_other base stride vs i (st : gmap Z Z) x :
  (forall k, 0 <= k < Z.of_nat (List.length vs) ->
             x <> base + (i + k) * stride) ->
  fold_left write (array_updates_from base stride i vs) st !! x = st !! x.
Proof.
  revert i st. induction vs as [|v vs IH]; intros i st Hother; [done|].
  cbn [array_updates_from fold_left]. rewrite IH.
  - apply update_lookup_other. intros Heq.
    apply (Hother 0); [simpl; lia|]. rewrite <- Heq. f_equal. lia.
  - intros k Hk Heq. apply (Hother (k + 1)); [simpl; lia|].
    rewrite Heq. f_equal. lia.
Qed.

Lemma fold_array_updates_lookup base stride vs i (st : gmap Z Z) k v :
  stride <> 0 ->
  (forall j, 0 <= j < Z.of_nat (List.length vs) ->
             base + (i + j) * stride ∈ _TRACKED_NV097_OPS g) ->
  vs !! k = Some v ->
  fold_left write (array_updates_from base stride i vs) st
    !! (base + (i + Z.of_nat k) * stride)
  = Some v.
Proof.
  intros Hstride. revert i st k.
  induction vs as [|v0 vs IH]; intros i st k Htracked Hk; [done|].
  cbn [array_updates_from fold_left]. destruct k as [|k].
  - injection Hk as ->.
    rewrite fold_array_updates_other.
    + replace (base + (i + Z.of_nat 0) * stride) with (base + i * stride)
        by lia.
      unfold update.
      destruct (decide (base + i * stride ∈ _TRACKED_NV097_OPS g))
        as [_|Hout].
      * apply lookup_insert_eq.
      * destruct Hout. specialize (Htracked 0).
        replace (base + (i + 0) * stride) with (base + i * stride)
          in Htracked by lia.
        apply Htracked. simpl. lia.
    + intros j Hj Heq. nia.
  - replace (base + (i + Z.of_nat (S k)) * stride)
      with (base + (i + 1 + Z.of_nat k) * stride) by lia.
    apply IH; [|done].
    intros j Hj. replace (i + 1 + j) with (i + (j + 1)) by lia.
    apply Htracked. simpl. lia.
Qed.

End round_trip.

Lemma registry_entry_tracked (ed : extracted_data) pre post info b x :
  CLASS_TO_COMMAND_PROCESSOR_MAP ed !! 0x97 = Some (pre ++ info :: post) ->
  base_op info = Some b ->
  b ∈ _BASE_TRACKED_NV097_OPS ed ->
  expands_to info x ->
  x ∈ _TRACKED_NV097_OPS (populated ed).
Proof.
  intros Hreg Hb Hin Hx. rewrite populated_fold.
  apply fold_populate_initial_tracked. exists info. split; [|by exists b].
  unfold kelvin_ops. rewrite Hreg. simpl.
  apply elem_of_app. right. by left.
Qed.

Lemma registry_entry_described (ed : extracted_data) pre post info b :
  CLASS_TO_COMMAND_PROCESSOR_MAP ed !! 0x97 = Some (pre ++ info :: post) ->
  base_op info = Some b ->
  b ∈ _BASE_TRACKED_NV097_OPS ed ->
  Forall (fun later => base_op later <> Some b) post ->
  _OP_TO_INFO_MAP (populated ed) !! b = Some info.
Proof.
  intros Hreg Hb Hin Hpost. rewrite populated_fold.
  unfold kelvin_ops. rewrite Hreg. simpl. by apply fold_populate_last.
Qed.

(** X7: a scalar opcode of the registry that is in the interest set (and
    is not described again by a later entry) can be written and read back:
    after [update(op, p)], [get_raw_value(op)] is [p] whatever the default
    and whatever the state held before, and [_process(op)] is the
    formatter's text for [p], or its upper-case hexadecimal text when no
    formatter is registered. *)
Theorem scalar_round_trip
    (ed : extracted_data) (pre post : list op_info) (op p : Z)
    (st : gmap Z Z) (dflt : option Z) (default_string_value : string) :
  CLASS_TO_COMMAND_PROCESSOR_MAP ed !! 0x97 = Some (pre ++ OpInt op :: post) ->
  op ∈ _BASE_TRACKED_NV097_OPS ed ->
  Forall (fun later => base_op later <> Some op) post ->
  get_raw_value (populated ed) (update (populated ed) st op p) op dflt
  = Ok (RawInt p)
  /\ _process ed (populated ed) (update (populated ed) st op p) op dflt
       default_string_value
     = Ok (PStr (decode_int ed op p)).
Proof.
  intros Hreg Hin Hpost.
  pose proof (registry_entry_described ed pre post (OpInt op) op Hreg
                eq_refl Hin Hpost) as Hinfo.
  pose proof (registry_entry_tracked ed pre post (OpInt op) op op Hreg
                eq_refl Hin eq_refl) as Htracked.
  assert (Hstored : update (populated ed) st op p !! op = Some p).
  { unfold update.
    destruct (decide (op ∈ _TRACKED_NV097_OPS (populated ed))); [|done].
    apply lookup_insert_eq. }
  assert (Hraw : get_raw_value (populated ed)
                   (update (populated ed) st op p) op dflt = Ok (RawInt p)).
  { unfold get_raw_value, state_get. by rewrite Hinfo, Hstored. }
  split; [exact Hraw|].
  unfold _process. rewrite Hraw. simpl. by rewrite Hinfo.
Qed.

Lemma scalar_round_trip_witness :
  get_raw_value (populated sample_data)
    (update (populated sample_data) ∅ 0x43C 0xFF) 0x43C None
  = Ok (RawInt 0xFF)
  /\ _process sample_data (populated sample_data)
       (update (populated sample_data) ∅ 0x43C 0xFF) 0x43C None "<UNKNOWN>"
     = Ok (PStr (decode_int sample_data 0x43C 0xFF)).
Proof.
  apply (scalar_round_trip sample_data
           (firstn 16 sample_kelvin_ops) (skipn 17 sample_kelvin_ops)).
  - vm_compute. reflexivity.
  - vm_compute. reflexivity.
  - simpl. repeat constructor; discriminate.
Defined.

(** X8: an array of the registry whose base is in the interest set (and is
    not described again by a later entry) can be written and read back:
    after any earlier updates, writing the [n] values [vs] to
    [base], [base + stride], ... in turn makes [get_raw_value(base)] return
    exactly [vs], provided the stride is not zero. *)
Theorem array_round_trip
    (ed : extracted_data) (pre post : list op_info) (base stride n : Z)
    (vs : list Z) (earlier : list (Z * Z)) :
  CLASS_TO_COMMAND_PROCESSOR_MAP ed !! 0x97
  = Some (pre ++ StateArray base stride n :: post) ->
  base ∈ _BASE_TRACKED_NV097_OPS ed ->
  Forall (fun later => base_op later <> Some base) post ->
  stride <> 0 ->
  Z.of_nat (List.length vs) = n ->
  get_raw_value (populated ed)
    (run_updates (populated ed) (earlier ++ array_updates base stride vs))
    base None
  = Ok (RawList vs).
Proof.
  intros Hreg Hin Hpost Hstride Hlen.
  pose proof (registry_entry_described ed pre post (StateArray base stride n)
                base Hreg eq_refl Hin Hpost) as Hinfo.
  unfold get_raw_value. rewrite Hinfo, collect_elements_mapM.
  assert (Hall : mapM (fun i =>
                         state_get
                           (run_updates (populated ed)
                              (earlier ++ array_updates base stride vs))
                           (base + i * stride) None) (range n) = Some vs).
  { apply mapM_Some. apply Forall2_same_length_lookup_2.
    - unfold range. rewrite length_seqZ. lia.
    - intros k i v Hi Hv. apply lookup_seqZ in Hi. destruct Hi as [-> Hk].
      unfold run_updates, array_updates. rewrite fold_left_app.
      unfold state_get.
      rewrite (fold_array_updates_lookup (populated ed) base stride vs 0 _
                 k v Hstride); [done| |done].
      intros j Hj.
      apply (registry_entry_tracked ed pre post (StateArray base stride n)
               base _ Hreg eq_refl Hin).
      simpl. exists j. split; [lia|]. f_equal. }
  by rewrite Hall.
Qed.

Lemma array_round_trip_witness :
  get_raw_value (populated sample_data)
    (run_updates (populated sample_data)
       ([(0x314, 1); (0x420, 9)] ++ array_updates 0x420 4 [1; 0; 0; 7]))
    0x420 None
  = Ok (RawList [1; 0; 0; 7]).
Proof.
  apply (array_round_trip sample_data
           (firstn 15 sample_kelvin_ops) (skipn 16 sample_kelvin_ops)
           0x420 4 4).
  - vm_compute. reflexivity.
  - vm_compute. reflexivity.
  - simpl. repeat constructor; discriminate.
  - lia.
  - reflexivity.
Defined.

(** ** Decoding element by element *)

Section elementwise.
Context (ed : extracted_data).

Lemma process_elements_imap base stride i (vs : list Z) acc :
  process_elements ed base stride i (ItemInt <$> vs) acc
  = Ok (acc ++ imap (fun k v =>
                       decode_int ed (base + (i + Z.of_nat k) * stride) v) vs).
Proof.
  revert i acc. induction vs as [|v vs IH]; intros i acc.
  - simpl. by rewrite app_nil_r.
  - cbn [fmap list_fmap process_elements format_param mbind result_bind].
    rewrite IH, <- app_assoc. f_equal. f_equal. cbn [imap List.app].
    f_equal.
    + unfold decode_int. by replace (i + Z.of_nat 0) with i by lia.
    + apply imap_ext. intros k x _. simpl. f_equal. lia.
Qed.

Lemma process_structs_imap stride struct_stride base j0
    (vss : list (list Z)) acc :
  process_structs ed stride struct_stride (base + j0 * struct_stride)
    (ItemList <$> vss) acc
  = Ok (acc ++ imap (fun j vs =>
                       imap (fun k v =>
                               decode_int ed
                                 (base + (j0 + Z.of_nat j) * struct_stride
                                  + Z.of_nat k * stride) v) vs) vss).
Proof.
  revert j0 acc. induction vss as [|vs vss IH]; intros j0 acc.
  - simpl. by rewrite app_nil_r.
  - cbn [fmap list_fmap process_structs item_iter mbind result_bind].
    rewrite process_elements_imap. cbn [mbind result_bind].
    replace (base + j0 * struct_stride + struct_stride)
      with (base + (j0 + 1) * struct_stride) by lia.
    rewrite IH, <- app_assoc. f_equal. f_equal. cbn [imap List.app].
    f_equal.
    + apply imap_ext. intros k x _. simpl. f_equal. lia.
    + apply imap_ext. intros j x _. simpl.
      apply imap_ext. intros k y _. simpl. f_equal. lia.
Qed.

End elementwise.

(** X9: when all the elements of an array field resolve, [_process] decodes
    them one by one and in order: the text of element [k] is the
    formatter's text, or the hexadecimal text, of that element's value
    under the element's own opcode [base + k * stride]. *)
Theorem process_array_elementwise
    (ed : extracted_data) (g : globals) (st : gmap Z Z)
    (opcode base stride n : Z) (vs : list Z)
    (default_raw_value : option Z) (default_string_value : string) :
  _OP_TO_INFO_MAP g !! opcode = Some (StateArray base stride n) ->
  get_raw_value g st opcode default_raw_value = Ok (RawList vs) ->
  _process ed g st opcode default_raw_value default_string_value
  = Ok (PList (imap (fun k v =>
                       decode_int ed (base + Z.of_nat k * stride) v) vs)).
Proof.
  intros Hinfo Hraw. unfold _process. rewrite Hraw. simpl. rewrite Hinfo.
  rewrite process_elements_imap. simpl. by do 2 f_equal.
Qed.

Lemma process_array_elementwise_witness :
  _process sample_data sample_globals {[ 0x424 := 0xAB ]} 0x420 (Some 0)
    "<UNKNOWN>"
  = Ok (PList (imap (fun k v => decode_int sample_data
                                  (0x420 + Z.of_nat k * 4) v)
                 [0; 0xAB; 0; 0])).
Proof.
  apply (process_array_elementwise sample_data sample_globals
           {[ 0x424 := 0xAB ]} 0x420 0x420 4 4 [0; 0xAB; 0; 0] (Some 0)).
  - vm_compute. reflexivity.
  - vm_compute. reflexivity.
Defined.

(** X10: when all the elements of a struct array field resolve, [_process]
    returns one list per struct, in order, and the text of element [k] of
    struct [j] is that of its value under the opcode
    [base + j * struct_stride + k * stride]. *)
Theorem process_struct_array_elementwise
    (ed : extracted_data) (g : globals) (st : gmap Z Z)
    (opcode base stride n struct_stride struct_count : Z)
    (vss : list (list Z))
    (default_raw_value : option Z) (default_string_value : string) :
  _OP_TO_INFO_MAP g !! opcode
  = Some (StructStateArray base stride n struct_stride struct_count) ->
  get_raw_value g st opcode default_raw_value = Ok (RawNested vss) ->
  _process ed g st opcode default_raw_value default_string_value
  = Ok (PNested
          (imap (fun j vs =>
                   imap (fun k v =>
                           decode_int ed
                             (base + Z.of_nat j * struct_stride
                              + Z.of_nat k * stride) v) vs) vss)).
Proof.
  intros Hinfo Hraw. unfold _process. rewrite Hraw. simpl. rewrite Hinfo.
  pose proof (process_structs_imap ed stride struct_stride base 0 vss [])
    as Hloop.
  replace (base + 0 * struct_stride) with base in Hloop by lia.
  rewrite Hloop. simpl. by do 2 f_equal.
Qed.

Lemma process_struct_array_elementwise_witness :
  _process struct_data struct_globals {[ 0x3D4 := 9 ]} 0x3C0 (Some 0)
    "<UNKNOWN>"
  = Ok (PNested
          (imap (fun j vs =>
                   imap (fun k v =>
                           decode_int struct_data
                             (0x3C0 + Z.of_nat j * 16 + Z.of_nat k * 4) v) vs)
             [[0; 0]; [0; 9]; [0; 0]])).
Proof.
  apply (process_struct_array_elementwise struct_data struct_globals
           {[ 0x3D4 := 9 ]} 0x3C0 0x3C0 4 2 16 3 [[0; 0]; [0; 9]; [0; 0]]
           (Some 0)).
  - vm_compute. reflexivity.
  - vm_compute. reflexivity.
Defined.

(** X11: a partly written array is shown as entirely unknown.  When one
    element of an array field is not in the frame state and no default raw
    value is given, [_process] returns [num_elements] copies of the default
    text: the elements that were written are not decoded. *)
Theorem process_partial_array_is_default
    (ed : extracted_data) (g : globals) (st : gmap Z Z)
    (opcode base stride n i : Z) (default_string_value : string) :
  _OP_TO_INFO_MAP g !! opcode = Some (StateArray base stride n) ->
  0 <= i < n ->
  st !! (base + i * stride) = None ->
  _process ed g st opcode None default_string_value
  = Ok (PList (replicate (Z.to_nat n) default_string_value)).
Proof.
  intros Hinfo Hi Hmissing.
  assert (Hraw : get_raw_value g st opcode None = Ok RawNone).
  { unfold get_raw_value. rewrite Hinfo, collect_elements_mapM.
    rewrite (mapM_range_None _ n i Hi); [done|].
    unfold state_get. by rewrite Hmissing. }
  unfold _process. rewrite Hraw. simpl. by rewrite Hinfo.
Qed.

Lemma process_partial_array_is_default_witness :
  _process sample_data sample_globals
    {[ 0x420 := 1; 0x424 := 1; 0x428 := 1 ]} 0x420 None "<UNKNOWN>"
  = Ok (PList (replicate (Z.to_nat 4) "<UNKNOWN>"%string)).
Proof.
  apply (process_partial_array_is_default sample_data sample_globals
           {[ 0x420 := 1; 0x424 := 1; 0x428 := 1 ]} 0x420 0x420 4 4 3).
  - vm_compute. reflexivity.
  - lia.
  - vm_compute. reflexivity.
Defined.

(** ** Index errors of the report *)

Lemma string_get_ge (s : string) (i : nat) :
  (String.length s <= i)%nat -> String.get i s = None.
Proof.
  revert i. induction s as [|c s IH]; intros i Hi; simpl in *; [done|].
  destruct i as [|i]; [lia|]. apply IH. lia.
Qed.

Lemma format_getitem_ge (repr_str : string -> string) (p : processed) i :
  (processed_len p <= i)%nat -> format_getitem repr_str p i = Raise IndexError.
Proof.
  intros Hi. destruct p as [s|l|l]; simpl in *.
  - by rewrite string_get_ge.
  - by rewrite lookup_ge_None_2.
  - by rewrite lookup_ge_None_2.
Qed.

(** [mapM] stops at the first element that raises. *)
Lemma mapM_result_raise {A B} (f : A -> result B) (l1 l2 : list A) x e :
  (forall y, y ∈ l1 -> is_Ok (f y)) ->
  f x = Raise e ->
  mapM f (l1 ++ x :: l2) = Raise e.
Proof.
  intros Hok Hx. induction l1 as [|y l1 IH]; cbn.
  - by rewrite Hx.
  - destruct (Hok y) as [z ->]; [by left|]. cbn.
    rewrite IH; [done|]. intros y' Hy'. apply Hok. by right.
Qed.

(** X12: when the four decoded texgen results are all non-empty but T, R or
    Q holds fewer items than S, building the per-index lines raises
    [IndexError]: the loop runs over the indices of S and nothing checks
    the other three lengths. *)
Theorem texgen_lines_short_field_raises
    (repr_str : string -> string) (s_vals t_vals r_vals q_vals : processed) :
  forallb processed_truthy [s_vals; t_vals; r_vals; q_vals] = true ->
  (processed_len t_vals < processed_len s_vals
   \/ processed_len r_vals < processed_len s_vals
   \/ processed_len q_vals < processed_len s_vals)%nat ->
  texgen_lines repr_str s_vals t_vals r_vals q_vals = Raise IndexError.
Proof.
  intros Hgate Hshort. unfold texgen_lines. rewrite Hgate.
  set (m := (processed_len t_vals `min` (processed_len r_vals
                                         `min` processed_len q_vals))%nat).
  assert (Hm : (m < processed_len s_vals)%nat) by lia.
  replace (processed_len s_vals)
    with (m + S (processed_len s_vals - S m))%nat by lia.
  rewrite seq_app. cbn [seq]. apply mapM_result_raise.
  - intros i Hi. apply elem_of_seq in Hi. unfold texgen_line.
    destruct (format_getitem_lt repr_str s_vals i) as [s ->]; [lia|].
    destruct (format_getitem_lt repr_str t_vals i) as [t ->]; [lia|].
    destruct (format_getitem_lt repr_str r_vals i) as [r ->]; [lia|].
    destruct (format_getitem_lt repr_str q_vals i) as [q ->]; [lia|].
    by eexists.
  - change (0 + m)%nat with m. unfold texgen_line.
    destruct (format_getitem_lt repr_str s_vals m) as [s ->]; [lia|].
    cbn [mbind result_bind].
    destruct (decide (processed_len t_vals <= m)%nat) as [Ht|Ht].
    { by rewrite (format_getitem_ge repr_str t_vals m Ht). }
    destruct (format_getitem_lt repr_str t_vals m) as [t ->]; [lia|].
    cbn [mbind result_bind].
    destruct (decide (processed_len r_vals <= m)%nat) as [Hr|Hr].
    { by rewrite (format_getitem_ge repr_str r_vals m Hr). }
    destruct (format_getitem_lt repr_str r_vals m) as [r ->]; [lia|].
    cbn [mbind result_bind].
    by rewrite (format_getitem_ge repr_str q_vals m) by lia.
Qed.

Lemma texgen_lines_short_field_raises_witness :
  texgen_lines sample_repr (PList ["a"%string; "b"%string])
    (PList ["c"%string]) (PList ["d"%string; "e"%string])
    (PList ["f"%string; "g"%string])
  = Raise IndexError.
Proof.
  apply texgen_lines_short_field_raises.
  - reflexivity.
  - left. simpl. lia.
Defined.

(** X13: the point-parameter lines index the raw value at 0, 1, 2, 3, 6 and
    7 without looking at its shape.  A non-empty list of fewer than eight
    values raises [IndexError], and a non-zero int (the field read as a
    scalar) raises [TypeError]. *)
Theorem point_params_wrong_shape_raises
    (float_str : float32 -> string) (vs : list Z) (v : Z) :
  vs <> [] ->
  (List.length vs < 8)%nat ->
  Forall uint32 vs ->
  v <> 0 ->
  point_params_lines float_str (RawList vs) = Raise IndexError
  /\ point_params_lines float_str (RawInt v) = Raise TypeError.
Proof.
  intros Hne Hlen Hall Hv. split.
  - unfold point_params_lines.
    assert (Htruthy : raw_truthy (RawList vs) = true)
      by (simpl; by apply bool_decide_eq_true).
    rewrite Htruthy.
    assert (Hstep : forall i,
              (exists f, float_at (RawList vs) i = Ok f)
              \/ float_at (RawList vs) i = Raise IndexError).
    { intros i. destruct (decide (i < List.length vs)%nat) as [Hi|Hi].
      - left. apply (float_at_uint32 vs i Hall Hi).
      - right. unfold float_at. simpl.
        by rewrite lookup_ge_None_2 by lia. }
    assert (Hlast : float_at (RawList vs) 7 = Raise IndexError).
    { unfold float_at. simpl. by rewrite lookup_ge_None_2 by lia. }
    destruct (Hstep 0%nat) as [[a ->]| ->]; [|done].
    destruct (Hstep 1%nat) as [[b ->]| ->]; [|done].
    destruct (Hstep 2%nat) as [[c ->]| ->]; [|done].
    destruct (Hstep 3%nat) as [[size_range ->]| ->]; [|done].
    destruct (Hstep 6%nat) as [[scale_bias ->]| ->]; [|done].
    by rewrite Hlast.
  - unfold point_params_lines. simpl.
    by rewrite bool_decide_eq_true_2.
Qed.

Lemma point_params_wrong_shape_raises_witness :
  point_params_lines sample_float_str (RawList [0x3F800000; 0; 0; 0])
  = Raise IndexError
  /\ point_params_lines sample_float_str (RawInt 5) = Raise TypeError.
Proof.
  apply point_params_wrong_shape_raises.
  - discriminate.
  - simpl. lia.
  - unfold uint32. repeat (constructor; [lia|]). constructor.
  - lia.
Defined.

(** ** The report of a fresh or barely written frame *)

Lemma get_raw_value_scalar (g : globals) (st : gmap Z Z) opcode dflt :
  scalar_field g opcode ->
  get_raw_value g st opcode dflt
  = Ok (match state_get st opcode dflt with
        | Some v => RawInt v
        | None => RawNone
        end).
Proof.
  unfold scalar_field, get_raw_value.
  by destruct (_OP_TO_INFO_MAP g !! opcode) as [[| | |]|].
Qed.

Lemma process_default_scalar_absent
    (ed : extracted_data) (g : globals) (st : gmap Z Z) opcode :
  scalar_field g opcode ->
  st !! opcode = None ->
  process_default ed g st opcode = Ok (PStr "<UNKNOWN>"%string).
Proof.
  intros Hscalar Habsent. unfold process_default, _process.
  rewrite (get_raw_value_scalar g st opcode None Hscalar).
  unfold state_get. rewrite Habsent. simpl.
  unfold scalar_field in Hscalar.
  by destruct (_OP_TO_INFO_MAP g !! opcode) as [[| | |]|].
Qed.

(** X15: the report of a frame with no update at all.  When the enable
    flags and the skinning mode are scalar fields, the four texgen fields
    arrays of [n] elements and the texture-matrix enables an array, the
    report of the empty frame state is: lighting, specular, fog and point
    parameters off, skinning mode unknown, no point-smooth line, the texgen
    header followed by [n] lines of unknown items, and no texture-matrix
    line. *)
Theorem report_of_fresh_frame
    (ed : extracted_data) (repr_str : string -> string)
    (float_str : float32 -> string) (g : globals)
    (bs ss bt st br sr bq sq n bm sm nm : Z) :
  scalar_field g (NV097_SET_LIGHTING_ENABLE ed) ->
  scalar_field g (NV097_SET_SPECULAR_ENABLE ed) ->
  scalar_field g (NV097_SET_FOG_ENABLE ed) ->
  scalar_field g (NV097_SET_SKIN_MODE ed) ->
  scalar_field g (NV097_SET_POINT_PARAMS_ENABLE ed) ->
  scalar_field g (NV097_SET_POINT_SMOOTH_ENABLE ed) ->
  _OP_TO_INFO_MAP g !! NV097_SET_TEXGEN_S ed = Some (StateArray bs ss n) ->
  _OP_TO_INFO_MAP g !! NV097_SET_TEXGEN_T ed = Some (StateArray bt st n) ->
  _OP_TO_INFO_MAP g !! NV097_SET_TEXGEN_R ed = Some (StateArray br sr n) ->
  _OP_TO_INFO_MAP g !! NV097_SET_TEXGEN_Q ed = Some (StateArray bq sq n) ->
  _OP_TO_INFO_MAP g !! NV097_SET_TEXTURE_MATRIX_ENABLE ed
  = Some (StateArray bm sm nm) ->
  report_lines ed repr_str float_str g ∅
  = Ok ([ "  Lighting: False"; "Specular enable: False";
          "Fog enable: False"; "Skinning mode: <UNKNOWN>";
          "Point params enable: False"; "TexGen: " ]%string
        ++ (unknown_texgen_line <$> seq 0 (Z.to_nat n))).
Proof.
  intros Hlighting Hspecular Hfog Hskin Hpoint Hsmooth Hs Ht Hr Hq Hmatrix.
  unfold report_lines.
  assert (Hflag : forall opcode,
            scalar_field g opcode ->
            get_raw_value g ∅ opcode (Some 0) = Ok (RawInt 0)).
  { intros opcode Hscalar.
    rewrite (get_raw_value_scalar g ∅ opcode (Some 0) Hscalar).
    unfold state_get. by rewrite lookup_empty. }
  assert (Hl : lighting_section ed repr_str g ∅
               = Ok ["  Lighting: False"%string]).
  { unfold lighting_section. by rewrite (Hflag _ Hlighting). }
  assert (Hf : fog_section ed repr_str g ∅
               = Ok [ "Specular enable: False"; "Fog enable: False";
                      "Skinning mode: <UNKNOWN>" ]%string).
  { unfold fog_section.
    rewrite (Hflag _ Hspecular). cbn [mbind result_bind].
    rewrite (Hflag _ Hfog). cbn [mbind result_bind raw_ne_zero].
    rewrite bool_decide_eq_false_2 by (intros H; by apply H).
    cbn [mbind result_bind].
    by rewrite (process_default_scalar_absent ed g ∅ _ Hskin
                  (lookup_empty _)). }
  assert (Hp : point_section ed repr_str float_str g ∅
               = Ok ["Point params enable: False"%string]).
  { unfold point_section.
    rewrite (Hflag _ Hpoint). cbn [mbind result_bind raw_ne_zero].
    rewrite bool_decide_eq_false_2 by (intros H; by apply H).
    cbn [mbind result_bind].
    by rewrite (Hflag _ Hsmooth). }
  assert (Hm : texture_matrix_section ed g ∅ = Ok []).
  { unfold texture_matrix_section.
    rewrite (get_raw_value_empty_state_array g _ bm sm nm Hmatrix).
    by destruct (decide (0 < nm)). }
  assert (Htex : texgen_section ed repr_str g ∅
                 = Ok ("TexGen: "%string
                       :: (unknown_texgen_line <$> seq 0 (Z.to_nat n)))).
  { unfold texgen_section.
    rewrite (process_default_empty_state_array ed g _ bs ss n Hs).
    rewrite (process_default_empty_state_array ed g _ bt st n Ht).
    rewrite (process_default_empty_state_array ed g _ br sr n Hr).
    rewrite (process_default_empty_state_array ed g _ bq sq n Hq).
    simpl. by rewrite (texgen_lines_all_unknown repr_str (Z.to_nat n)). }
  rewrite Hl, Hf, Hp, Htex, Hm. simpl. by rewrite app_nil_r.
Qed.

Lemma report_of_fresh_frame_witness :
  report_lines sample_data sample_repr sample_float_str sample_globals ∅
  = Ok ([ "  Lighting: False"; "Specular enable: False";
          "Fog enable: False"; "Skinning mode: <UNKNOWN>";
          "Point params enable: False"; "TexGen: " ]%string
        ++ (unknown_texgen_line <$> seq 0 (Z.to_nat 4))).
Proof.
  apply (report_of_fresh_frame sample_data sample_repr sample_float_str
           sample_globals 0x3C0 16 0x3C4 16 0x3C8 16 0x3CC 16 4 0x420 4 4);
    try (vm_compute; reflexivity); vm_compute; exact I.
Defined.

(** X16: the lighting section of a frame that only enabled lighting.  When
    the five lighting fields are scalar fields, the frame state holds a
    non-zero value for the lighting enable and nothing for the other four,
    the section is the header with [True] followed by the two-sided line
    with [False] and the color-material, light-control and light-enable
    lines with the default text. *)
Theorem lighting_section_when_enabled
    (ed : extracted_data) (repr_str : string -> string)
    (g : globals) (st : gmap Z Z) (v : Z) :
  scalar_field g (NV097_SET_LIGHTING_ENABLE ed) ->
  scalar_field g (NV097_SET_TWO_SIDE_LIGHT_EN ed) ->
  scalar_field g (NV097_SET_COLOR_MATERIAL ed) ->
  scalar_field g (NV097_SET_LIGHT_CONTROL ed) ->
  scalar_field g (NV097_SET_LIGHT_ENABLE_MASK ed) ->
  st !! NV097_SET_LIGHTING_ENABLE ed = Some v ->
  v <> 0 ->
  st !! NV097_SET_TWO_SIDE_LIGHT_EN ed = None ->
  st !! NV097_SET_COLOR_MATERIAL ed = None ->
  st !! NV097_SET_LIGHT_CONTROL ed = None ->
  st !! NV097_SET_LIGHT_ENABLE_MASK ed = None ->
  lighting_section ed repr_str g st
  = Ok [ "  Lighting: True"; tab ++ "Two sided: False";
         tab ++ "Color material: <UNKNOWN>";
         tab ++ "Light control: <UNKNOWN>";
         tab ++ "Light enable: <UNKNOWN>" ]%string.
Proof.
  intros Hlighting Htwo Hcolor Hcontrol Hmask Hv Hnz Htwo' Hcolor' Hcontrol'
    Hmask'.
  unfold lighting_section.
  rewrite (get_raw_value_scalar g st _ (Some 0) Hlighting).
  unfold state_get at 1. rewrite Hv.
  cbn [mbind result_bind raw_ne_zero].
  rewrite bool_decide_eq_true_2 by done.
  rewrite (get_raw_value_scalar g st _ (Some 0) Htwo).
  unfold state_get at 1. rewrite Htwo'.
  cbn [mbind result_bind].
  rewrite (process_default_scalar_absent ed g st _ Hcolor Hcolor').
  rewrite (process_default_scalar_absent ed g st _ Hcontrol Hcontrol').
  rewrite (process_default_scalar_absent ed g st _ Hmask Hmask').
  reflexivity.
Qed.

Lemma lighting_section_when_enabled_witness :
  lighting_section sample_data sample_repr sample_globals
    (update sample_globals ∅ 0x314 1)
  = Ok [ "  Lighting: True"; tab ++ "Two sided: False";
         tab ++ "Color material: <UNKNOWN>";
         tab ++ "Light control: <UNKNOWN>";
         tab ++ "Light enable: <UNKNOWN>" ]%string.
Proof.
  apply (lighting_section_when_enabled sample_data sample_repr sample_globals
           (update sample_globals ∅ 0x314 1) 1);
    try (vm_compute; reflexivity); try lia; vm_compute; exact I.
Defined.
